(** * Offline-first cloud synchronisation gate: a shallow embedding

    This development embeds, as Rocq functions, the synchronisation layer of
    the application:

    - [services/storage.service]      ([loadState], [saveState], [clearState]),
    - [services/pendingSync.service]  ([setPendingSnapshot], ...),
    - [state/app.store]               ([getSnapshot], [replaceAllData], ...),
    - [providers/CloudSyncGate]       ([isNetworkOrServerError],
      [acquireSyncLock], [pushSnapshot], [initForSession], the connectivity
      listeners, the retry timer and the [SIGNED_OUT] handler),
    - [i18n/config]                   ([customDetector]: [lookup],
      [cacheUserLanguage]),
    - [App]                           (the banner effect of [AppFrame]).

    Each handler is modelled as one run-to-completion computation in a
    state-and-exception monad over a [World] (localStorage, the zustand
    store, [initializedRef] and the trace of calls made to the external
    collaborators).  The answers of those collaborators are read from an
    environment [Env] indexed by the trace so far.  Logging is left out.
    The [SIGNED_IN] branch of the auth listener and the debounce effect are
    not embedded: no property below depends on them. *)

From Stdlib Require Import ZArith String Ascii List Bool Lia.
From stdpp Require Import base option gmap strings pretty list.

Set Warnings "-register-all".

Local Open Scope string_scope.
Local Open Scope Z_scope.

(** ** JavaScript values

    TypeScript types are erased at run time: what is read back from
    localStorage, from the remote store or from a caught exception is an
    arbitrary JSON value.  Numbers are the integers (all the numbers the
    application writes are: schema version, timestamps, HTTP status). *)

Inductive JS : Type :=
| JUndef
| JNull
| JBool (b : bool)
| JNum (n : Z)
| JStr (s : string)
| JArr (elems : list JS)
| JObj (fields : list (string * JS)).

Module Js.

(** [ToBoolean]. *)
Definition truthy (v : JS) : bool :=
  match v with
  | JUndef | JNull => false
  | JBool b => b
  | JNum n => negb (Z.eqb n 0)
  | JStr s => negb (String.eqb s EmptyString)
  | JArr _ | JObj _ => true
  end.

Definition nullish (v : JS) : bool :=
  match v with JUndef | JNull => true | _ => false end.

(** [a ?? b], [a || b]. *)
Definition coalesce (a b : JS) : JS := if nullish a then b else a.
Definition or (a b : JS) : JS := if truthy a then a else b.

Fixpoint lookup_field (k : string) (fs : list (string * JS)) : JS :=
  match fs with
  | [] => JUndef
  | (k', v) :: rest => if String.eqb k k' then v else lookup_field k rest
  end.

(** [o.k] on a value that is neither [null] nor [undefined]; none of the
    property names read by the application exists on arrays, strings,
    numbers or booleans. *)
Definition field (k : string) (o : JS) : JS :=
  match o with
  | JObj fs => lookup_field k fs
  | _ => JUndef
  end.

(** [o?.k] *)
Definition opt_field (k : string) (o : JS) : JS :=
  if nullish o then JUndef else field k o.

(** [o?.[0]] *)
Definition opt_first (o : JS) : JS :=
  match o with
  | JArr (x :: _) => x
  | JStr (String c _) => JStr (String c EmptyString)
  | JObj fs => lookup_field "0" fs
  | _ => JUndef
  end.

(** Assignment of a key in an object literal: an existing key keeps its
    place, a new key goes last. *)
Fixpoint set_field (k : string) (v : JS) (fs : list (string * JS))
  : list (string * JS) :=
  match fs with
  | [] => [(k, v)]
  | (k', v') :: rest =>
      if String.eqb k k' then (k, v) :: rest else (k', v') :: set_field k v rest
  end.

Fixpoint index_keys (n : nat) (l : list JS) : list (string * JS) :=
  match l with
  | [] => []
  | x :: rest => (pretty n, x) :: index_keys (S n) rest
  end.

Fixpoint chars (s : string) : list JS :=
  match s with
  | EmptyString => []
  | String c rest => JStr (String c EmptyString) :: chars rest
  end.

(** Own enumerable properties copied by an object spread [{...v}]. *)
Definition spread (v : JS) : list (string * JS) :=
  match v with
  | JObj fs => fs
  | JArr l => index_keys 0 l
  | JStr s => index_keys 0 (chars s)
  | _ => []
  end.

Definition lower_ascii (c : ascii) : ascii :=
  let n := N_of_ascii c in
  if ((65 <=? n) && (n <=? 90))%N then ascii_of_N (n + 32) else c.

Fixpoint toLowerCase (s : string) : string :=
  match s with
  | EmptyString => EmptyString
  | String c rest => String (lower_ascii c) (toLowerCase rest)
  end.

(** [hay.includes(needle)] *)
Fixpoint includes (needle hay : string) : bool :=
  String.prefix needle hay ||
  match hay with
  | EmptyString => false
  | String _ rest => includes needle rest
  end.

Definition join_with (sep : string) (l : list string) : string :=
  match l with
  | [] => EmptyString
  | x :: rest => fold_left (fun acc y => acc +:+ sep +:+ y) rest x
  end.

(** [String(v)] *)
Fixpoint to_String (v : JS) : string :=
  match v with
  | JUndef => "undefined"
  | JNull => "null"
  | JBool true => "true"
  | JBool false => "false"
  | JNum n => pretty n
  | JStr s => s
  | JArr l =>
      join_with ","
        (map (fun x => if nullish x then EmptyString else to_String x) l)
  | JObj _ => "[object Object]"
  end.

Definition is_space (c : ascii) : bool :=
  let n := N_of_ascii c in
  ((n =? 32) || ((9 <=? n) && (n <=? 13)))%N.

Definition digit_of (c : ascii) : option Z :=
  let n := N_of_ascii c in
  if ((48 <=? n) && (n <=? 57))%N then Some (Z.of_N n - 48) else None.

Fixpoint skip_spaces (s : string) : string :=
  match s with
  | String c rest => if is_space c then skip_spaces rest else s
  | EmptyString => s
  end.

Fixpoint read_digits (acc : option Z) (s : string) : option Z :=
  match s with
  | String c rest =>
      match digit_of c with
      | Some d => read_digits (Some (10 * default 0 acc + d)) rest
      | None => acc
      end
  | EmptyString => acc
  end.

(** [parseInt(s, 10)]; [None] is [NaN]. *)
Definition parseInt (s : string) : option Z :=
  match skip_spaces s with
  | String "-" rest => Z.opp <$> read_digits None rest
  | String "+" rest => read_digits None rest
  | rest => read_digits None rest
  end.

(** [JSON.stringify]: a string, or [undefined] for [undefined]. *)
Definition dquote : ascii := ascii_of_N 34.
Definition backslash : ascii := ascii_of_N 92.

Definition hex_digit (n : N) : ascii :=
  if (n <? 10)%N then ascii_of_N (48 + n) else ascii_of_N (87 + n).

Definition escape_char (c : ascii) : string :=
  let n := N_of_ascii c in
  if (n =? 34)%N then String backslash (String dquote EmptyString)
  else if (n =? 92)%N then String backslash (String backslash EmptyString)
  else if (n =? 8)%N then String backslash "b"
  else if (n =? 9)%N then String backslash "t"
  else if (n =? 10)%N then String backslash "n"
  else if (n =? 12)%N then String backslash "f"
  else if (n =? 13)%N then String backslash "r"
  else if (n <? 32)%N then
    String backslash
      ("u00" +:+ String (hex_digit (n / 16)) (String (hex_digit (n mod 16)) EmptyString))
  else String c EmptyString.

Fixpoint escape (s : string) : string :=
  match s with
  | EmptyString => EmptyString
  | String c rest => escape_char c +:+ escape rest
  end.

Definition quote (s : string) : string :=
  String dquote (escape s +:+ String dquote EmptyString).

Fixpoint stringify (v : JS) : option string :=
  match v with
  | JUndef => None
  | JNull => Some "null"
  | JBool true => Some "true"
  | JBool false => Some "false"
  | JNum n => Some (pretty n)
  | JStr s => Some (quote s)
  | JArr l =>
      Some ("[" +:+ join_with "," (map (fun x => default "null" (stringify x)) l)
            +:+ "]")
  | JObj fs =>
      Some ("{" +:+
            join_with ","
              (omap (fun kv => (fun sx => quote (fst kv) +:+ ":" +:+ sx)
                                 <$> stringify (snd kv)) fs)
            +:+ "}")
  end.

Definition JSON_stringify (v : JS) : JS :=
  match stringify v with
  | Some s => JStr s
  | None => JUndef
  end.

End Js.

(** ** localStorage

    The Web Storage area shared by every tab: string keys and string values.
    Access can fail, which is why the source wraps it in [try]/[catch]:
    [Denied] makes every access throw a [SecurityError] (storage disabled),
    [QuotaExceeded] makes every [setItem] throw. *)

Inductive StorageMode := Working | QuotaExceeded | Denied.

Set Primitive Projections.

Record Storage := mkStorage {
  items : gmap string string;
  mode : StorageMode
}.

(** ** The zustand store ([state/app.store]) *)

Inductive CloudStatus := Idle | Syncing | Ok | Offline | Error.
Inductive CloudMode := Guest | Cloud.

Definition is_cloud (m : CloudMode) : bool :=
  match m with Cloud => true | Guest => false end.

Definition is_error (st : CloudStatus) : bool :=
  match st with Error => true | _ => false end.

Record User := mkUser {
  email : JS;
  name : JS;
  avatarUrl : JS;
  provider : JS
}.

(** The data fields of [AppStore] (its function fields are not data and are
    dropped by [JSON.stringify]).  [schemaVersion], [security] and
    [cloudSyncReady] come from the hydrated document, which [loadState]
    only casts to [AppState]; [extra] holds the keys of that document the
    store does not declare. *)
Record Store := mkStore {
  schemaVersion : JS;
  security : JS;
  cloudSyncReady : JS;
  extra : list (string * JS);
  subscription : JS;
  sessionExpired : bool;
  cloudMode : CloudMode;
  cloudStatus : CloudStatus;
  welcomeSeen : JS;
  selectedMonth : string;
  user : User
}.

(** ** External collaborators

    Every call that leaves the component is recorded in the trace, newest
    first.  [EvUpsertCloudState] also records the content of the sync-lock
    cell of localStorage at the time of the call.  [EvSetTimeout] is the
    delayed retry of the session lookup armed in development mode. *)

Inductive Event :=
| EvGetNetworkStatus
| EvGetSession
| EvSignOut
| EvReload
| EvSignInAnonymously
| EvGetCloudState
| EvUpsertCloudState (snapshot : JS) (lock : option string)
| EvGetSubscription (userId : JS)
| EvInitializePushNotifications
| EvDeactivateToken
| EvCleanupPushNotifications
| EvClearSubscriptionCache
| EvSetTimeout (ms : Z).

(** The result of a call: a value, or a thrown JavaScript value (a rejected
    promise, once awaited). *)
Inductive Res (A : Type) :=
| Return (a : A)
| Throw (e : JS).
Arguments Return {A} a.
Arguments Throw {A} e.

(** The behaviour of the platform and of the collaborators; the answer to a
    call may depend on everything that happened before it. *)
Record Env := mkEnv {
  DEV : bool;                                         (* import.meta.env.DEV *)
  JSON_parse : string -> option JS;                   (* None: SyntaxError *)
  Date_now : list Event -> Z;
  navigator_onLine : list Event -> bool;
  network_status : list Event -> bool;                (* getNetworkStatus() *)
  auth_getSession : list Event -> Res JS;             (* result.data.session *)
  auth_signOut : list Event -> Res unit;
  auth_signInAnonymously : list Event -> Res JS;
  cloud_get : list Event -> Res JS;                   (* getCloudState() *)
  cloud_upsert : list Event -> JS -> Res unit;        (* upsertCloudState(s) *)
  subscription_get : list Event -> JS -> Res JS       (* getSubscription(id) *)
}.

Record World := mkWorld {
  localStorage : Storage;
  store : Store;
  initializedRef : bool;
  trace : list Event
}.

Unset Primitive Projections.

Definition SecurityError : JS := JObj [("name", JStr "SecurityError")].
Definition QuotaExceededError : JS := JObj [("name", JStr "QuotaExceededError")].
Definition SyntaxError : JS := JObj [("name", JStr "SyntaxError")].
Definition TypeError : JS := JObj [("name", JStr "TypeError")].

(** ** The monad of handlers: state over [World], with exceptions *)

Definition M (A : Type) : Type := World -> Res A * World.

Definition ret {A} (a : A) : M A := fun w => (Return a, w).

Definition bind {A B} (c : M A) (k : A -> M B) : M B :=
  fun w =>
    match c w with
    | (Return a, w') => k a w'
    | (Throw e, w') => (Throw e, w')
    end.

Definition throw {A} (e : JS) : M A := fun w => (Throw e, w).

(** [try { c } catch (e) { h e }] *)
Definition try_catch {A} (c : M A) (h : JS -> M A) : M A :=
  fun w =>
    match c w with
    | (Return a, w') => (Return a, w')
    | (Throw e, w') => h e w'
    end.

(** [try { c } finally { f }] *)
Definition try_finally {A} (c : M A) (f : M unit) : M A :=
  fun w =>
    match c w with
    | (r, w') =>
        match f w' with
        | (Return _, w'') => (r, w'')
        | (Throw e, w'') => (Throw e, w'')
        end
    end.

Declare Scope js_scope.
Delimit Scope js_scope with js.
Notation "x <- c ;; k" := (bind c (fun x => k))
  (at level 100, c at next level, right associativity) : js_scope.
Notation "c ;; k" := (bind c (fun _ => k))
  (at level 100, right associativity) : js_scope.
Local Open Scope js_scope.

Definition get_world : M World := fun w => (Return w, w).
Definition get_store : M Store := fun w => (Return (store w), w).

Definition put_storage (s : Storage) : M unit :=
  fun w => (Return tt, mkWorld s (store w) (initializedRef w) (trace w)).

Definition modify_store (f : Store -> Store) : M unit :=
  fun w =>
    (Return tt, mkWorld (localStorage w) (f (store w)) (initializedRef w) (trace w)).

Definition set_initializedRef (b : bool) : M unit :=
  fun w => (Return tt, mkWorld (localStorage w) (store w) b (trace w)).

Definition emit (ev : Event) : M unit :=
  fun w =>
    (Return tt,
     mkWorld (localStorage w) (store w) (initializedRef w) (ev :: trace w)).

(** Await a collaborator: record the call, continue with its answer. *)
Definition call {A} (ev : Event) (answer : list Event -> Res A) : M A :=
  fun w =>
    (answer (trace w),
     mkWorld (localStorage w) (store w) (initializedRef w) (ev :: trace w)).

(** [o.k], which throws a [TypeError] when [o] is [null] or [undefined]. *)
Definition get_field (k : string) (o : JS) : M JS :=
  if Js.nullish o then throw TypeError else ret (Js.field k o).

(** Truthiness of the [string | null] returned by [getItem]. *)
Definition str_truthy (o : option string) : bool :=
  match o with
  | Some s => negb (String.eqb s EmptyString)
  | None => false
  end.

Module LocalStorage.

Definition getItem (k : string) : M (option string) :=
  fun w =>
    match mode (localStorage w) with
    | Denied => (Throw SecurityError, w)
    | _ => (Return (items (localStorage w) !! k), w)
    end.

Definition setItem (k v : string) : M unit :=
  fun w =>
    match mode (localStorage w) with
    | Denied => (Throw SecurityError, w)
    | QuotaExceeded => (Throw QuotaExceededError, w)
    | Working =>
        put_storage (mkStorage (<[k := v]> (items (localStorage w))) Working) w
    end.

Definition removeItem (k : string) : M unit :=
  fun w =>
    match mode (localStorage w) with
    | Denied => (Throw SecurityError, w)
    | m => put_storage (mkStorage (delete k (items (localStorage w))) m) w
    end.

(** [Object.keys(localStorage)] *)
Definition keys : M (list string) :=
  fun w =>
    match mode (localStorage w) with
    | Denied => (Throw SecurityError, w)
    | _ => (Return (map fst (map_to_list (items (localStorage w)))), w)
    end.

End LocalStorage.

Section Program.

Variable env : Env.

Definition now : M Z := fun w => (Return (Date_now env (trace w)), w).

Definition navigator_onLine_now : M bool :=
  fun w => (Return (navigator_onLine env (trace w)), w).

(** [JSON.parse(s)] *)
Definition parse (s : string) : M JS :=
  match JSON_parse env s with
  | Some v => ret v
  | None => throw SyntaxError
  end.

(** ** services/storage.service *)

Definition STORAGE_KEY : string := "app_state_v1".

Definition loadState : M JS :=
  try_catch
    (raw <- LocalStorage.getItem STORAGE_KEY ;;
     match raw with
     | Some text =>
         if negb (str_truthy raw) then ret JNull
         else
           parsed <- parse text ;;
           version <- get_field "schemaVersion" parsed ;;
           if negb (Js.truthy version) then ret JNull else ret parsed
     | None => ret JNull
     end)
    (fun _ => ret JNull).

Definition saveState (state : JS) : M unit :=
  try_catch
    (LocalStorage.setItem STORAGE_KEY (Js.to_String (Js.JSON_stringify state)))
    (fun _ => ret tt).

Definition clearState : M unit :=
  try_catch (LocalStorage.removeItem STORAGE_KEY) (fun _ => ret tt).

(** ** services/pendingSync.service *)

Definition KEY : string := "app.pendingSnapshot.v1".

Definition setPendingSnapshot (state : JS) : M unit :=
  try_catch
    (LocalStorage.setItem KEY (Js.to_String (Js.JSON_stringify state)))
    (fun _ => ret tt).

Definition getPendingSnapshot : M JS :=
  try_catch
    (raw <- LocalStorage.getItem KEY ;;
     match raw with
     | Some text => if negb (str_truthy raw) then ret JNull else parse text
     | None => ret JNull
     end)
    (fun _ => ret JNull).

Definition clearPendingSnapshot : M unit :=
  try_catch (LocalStorage.removeItem KEY) (fun _ => ret tt).

Definition hasPendingSnapshot : M bool :=
  pending <- getPendingSnapshot ;; ret (Js.truthy pending).

(** ** state/app.store *)

Definition SEEN_KEY : string := "app.welcomeSeen.v1".

Definition cloudMode_json (m : CloudMode) : JS :=
  JStr (match m with Guest => "guest" | Cloud => "cloud" end).

Definition cloudStatus_json (st : CloudStatus) : JS :=
  JStr (match st with
        | Idle => "idle" | Syncing => "syncing" | Ok => "ok"
        | Offline => "offline" | Error => "error"
        end).

Definition user_json (u : User) : JS :=
  JObj [("email", email u); ("name", name u);
        ("avatarUrl", avatarUrl u); ("provider", provider u)].

(** The store state as the object handed to [saveState] by the actions that
    persist [get()] or [{...state, ...}]; the hydrated keys come first. *)
Definition store_json (s : Store) : JS :=
  JObj ([("schemaVersion", schemaVersion s);
         ("security", security s);
         ("cloudSyncReady", cloudSyncReady s)]
        ++ extra s ++
        [("subscription", subscription s);
         ("sessionExpired", JBool (sessionExpired s));
         ("cloudMode", cloudMode_json (cloudMode s));
         ("cloudStatus", cloudStatus_json (cloudStatus s));
         ("welcomeSeen", welcomeSeen s);
         ("selectedMonth", JStr (selectedMonth s));
         ("user", user_json (user s))]).

Definition defaultSecurity : JS := JObj [("biometricEnabled", JBool false)].

Definition defaultState : JS :=
  JObj [("schemaVersion", JNum 1); ("security", defaultSecurity)].

Definition with_sessionExpired (v : bool) (s : Store) : Store :=
  mkStore (schemaVersion s) (security s) (cloudSyncReady s) (extra s)
    (subscription s) v (cloudMode s) (cloudStatus s) (welcomeSeen s)
    (selectedMonth s) (user s).

Definition with_cloudMode (m : CloudMode) (s : Store) : Store :=
  mkStore (schemaVersion s) (security s) (cloudSyncReady s) (extra s)
    (subscription s) (sessionExpired s) m (cloudStatus s) (welcomeSeen s)
    (selectedMonth s) (user s).

Definition with_cloudStatus (st : CloudStatus) (s : Store) : Store :=
  mkStore (schemaVersion s) (security s) (cloudSyncReady s) (extra s)
    (subscription s) (sessionExpired s) (cloudMode s) st (welcomeSeen s)
    (selectedMonth s) (user s).

Definition with_welcomeSeen (v : JS) (s : Store) : Store :=
  mkStore (schemaVersion s) (security s) (cloudSyncReady s) (extra s)
    (subscription s) (sessionExpired s) (cloudMode s) (cloudStatus s) v
    (selectedMonth s) (user s).

Definition with_user (u : User) (s : Store) : Store :=
  mkStore (schemaVersion s) (security s) (cloudSyncReady s) (extra s)
    (subscription s) (sessionExpired s) (cloudMode s) (cloudStatus s)
    (welcomeSeen s) (selectedMonth s) u.

Definition with_cloudSyncReady (v : JS) (s : Store) : Store :=
  mkStore (schemaVersion s) (security s) v (extra s)
    (subscription s) (sessionExpired s) (cloudMode s) (cloudStatus s)
    (welcomeSeen s) (selectedMonth s) (user s).

Definition with_subscription (v : JS) (s : Store) : Store :=
  mkStore (schemaVersion s) (security s) (cloudSyncReady s) (extra s)
    v (sessionExpired s) (cloudMode s) (cloudStatus s)
    (welcomeSeen s) (selectedMonth s) (user s).

(** [{ ...state, schemaVersion: 1, security }] *)
Definition with_security (sec : JS) (s : Store) : Store :=
  mkStore (JNum 1) sec (cloudSyncReady s) (extra s)
    (subscription s) (sessionExpired s) (cloudMode s) (cloudStatus s)
    (welcomeSeen s) (selectedMonth s) (user s).

(** [set({ schemaVersion: 1, welcomeSeen, security })] *)
Definition with_data (seen sec : JS) (s : Store) : Store :=
  mkStore (JNum 1) sec (cloudSyncReady s) (extra s)
    (subscription s) (sessionExpired s) (cloudMode s) (cloudStatus s)
    seen (selectedMonth s) (user s).

Definition setSessionExpired (v : bool) : M unit := modify_store (with_sessionExpired v).
Definition setCloudMode (m : CloudMode) : M unit := modify_store (with_cloudMode m).
Definition setCloudStatus (st : CloudStatus) : M unit := modify_store (with_cloudStatus st).
Definition setUser (u : User) : M unit := modify_store (with_user u).
Definition setCloudSyncReady : M unit := modify_store (with_cloudSyncReady (JBool true)).
Definition setSubscription (sub : JS) : M unit := modify_store (with_subscription sub).
Definition clearSubscription : M unit := setSubscription JNull.

(** The two branches that mirror a flag to [SEEN_KEY]. *)
Definition mirror_welcomeSeen (v : bool) : M unit :=
  try_catch
    (if v then LocalStorage.setItem SEEN_KEY "1"
     else LocalStorage.removeItem SEEN_KEY)
    (fun _ => ret tt).

Definition setWelcomeSeen (v : bool) : M unit :=
  mirror_welcomeSeen v ;;
  modify_store (with_welcomeSeen (JBool v)) ;;
  s <- get_store ;;
  saveState (store_json s).

Definition getSnapshot : M JS :=
  s <- get_store ;;
  ret (JObj [("schemaVersion", JNum 1);
             ("welcomeSeen", welcomeSeen s);
             ("security", security s)]).

Definition toggleBiometricAuth : M unit :=
  state <- get_store ;;
  let next :=
    with_security
      (JObj [("biometricEnabled",
              JBool (negb (Js.truthy
                             (Js.coalesce
                                (Js.opt_field "biometricEnabled" (security state))
                                (JBool false)))));
             ("lastAuthTimestamp",
              Js.opt_field "lastAuthTimestamp" (security state))])
      state in
  saveState (store_json next) ;;
  modify_store (fun _ => next).

Definition updateLastAuthTimestamp : M unit :=
  state <- get_store ;;
  t <- now ;;
  let next :=
    with_security
      (JObj [("biometricEnabled",
              Js.coalesce (Js.opt_field "biometricEnabled" (security state))
                (JBool false));
             ("lastAuthTimestamp", JNum t)])
      state in
  saveState (store_json next) ;;
  modify_store (fun _ => next).

Definition getBiometricSettings : M JS :=
  state <- get_store ;;
  ret (Js.coalesce (security state) defaultSecurity).

(** [{ ...data, schemaVersion: 1 }] *)
Definition normalize (data : JS) : JS :=
  JObj (Js.set_field "schemaVersion" (JNum 1) (Js.spread data)).

Definition replaceAllData (data : JS) : M unit :=
  saveState (normalize data) ;;
  seen <- get_field "welcomeSeen" data ;;
  match seen with
  | JUndef => ret tt
  | _ => mirror_welcomeSeen (Js.truthy seen)
  end ;;
  sec <- get_field "security" data ;;
  modify_store
    (with_data (Js.coalesce seen (JBool false)) (Js.coalesce sec defaultSecurity)).

(** The initial state built by [create]: [loadState() ?? defaultState]
    spread first, then the declared fields. *)
Definition declared_keys : list string :=
  ["schemaVersion"; "security"; "cloudSyncReady"; "subscription";
   "sessionExpired"; "cloudMode"; "cloudStatus"; "welcomeSeen";
   "selectedMonth"; "user"].

Definition create (currentMonthKey : string) : M Store :=
  loaded <- loadState ;;
  let hydrated := Js.coalesce loaded defaultState in
  seen <- try_catch
            (raw <- LocalStorage.getItem SEEN_KEY ;;
             ret (bool_decide (raw = Some "1")))
            (fun _ => ret false) ;;
  ret (mkStore
         (Js.field "schemaVersion" hydrated)
         (Js.field "security" hydrated)
         (Js.field "cloudSyncReady" hydrated)
         (List.filter
            (fun kv => negb (existsb (String.eqb (fst kv)) declared_keys))
            (Js.spread hydrated))
         JNull false Guest Idle (JBool seen) currentMonthKey
         (mkUser JNull JNull JNull JNull)).

(** ** providers/CloudSyncGate *)

Definition SYNC_LOCK_KEY : string := "app.syncLock".
Definition SYNC_LOCK_TIMEOUT : Z := 5000.

Definition failure_message (err : JS) : string :=
  Js.toLowerCase
    (Js.to_String
       (Js.coalesce (Js.coalesce (Js.opt_field "message" err) err)
          (JStr EmptyString))).

Definition failure_status (err : JS) : JS :=
  Js.coalesce
    (Js.coalesce (Js.opt_field "status" err) (Js.opt_field "statusCode" err))
    (JNum 0).

(** [onLine] is [navigator.onLine]. *)
Definition isNetworkOrServerError (onLine : bool) (err : JS) : bool :=
  let msg := failure_message err in
  let status := failure_status err in
  negb onLine ||
  Js.includes "failed to fetch" msg ||
  Js.includes "err_name_not_resolved" msg ||
  Js.includes "networkerror" msg ||
  Js.includes "internal server error" msg ||
  Js.includes "bad gateway" msg ||
  Js.includes "service unavailable" msg ||
  Js.includes "gateway timeout" msg ||
  Js.includes "timeout" msg ||
  Js.includes "econnrefused" msg ||
  Js.includes "econnreset" msg ||
  match status with
  | JNum n => (500 <=? n) && (n <? 600)
  | _ => false
  end.

(** [now - lockTime < SYNC_LOCK_TIMEOUT], false on [NaN]. *)
Definition lock_is_fresh (t : Z) (existingLock : string) : bool :=
  match Js.parseInt existingLock with
  | Some lockTime => t - lockTime <? SYNC_LOCK_TIMEOUT
  | None => false
  end.

Definition acquireSyncLock : M bool :=
  try_catch
    (t <- now ;;
     existingLock <- LocalStorage.getItem SYNC_LOCK_KEY ;;
     match existingLock with
     | Some text =>
         if str_truthy existingLock && lock_is_fresh t text then ret false
         else LocalStorage.setItem SYNC_LOCK_KEY (pretty t) ;; ret true
     | None => LocalStorage.setItem SYNC_LOCK_KEY (pretty t) ;; ret true
     end)
    (fun _ => ret true).

Definition releaseSyncLock : M unit :=
  try_catch (LocalStorage.removeItem SYNC_LOCK_KEY) (fun _ => ret tt).

Definition getNetworkStatus : M bool :=
  call EvGetNetworkStatus (fun tr => Return (network_status env tr)).

(** The content of the lock cell, for the trace. *)
Definition lock_cell (w : World) : option string :=
  match mode (localStorage w) with
  | Denied => None
  | _ => items (localStorage w) !! SYNC_LOCK_KEY
  end.

Definition upsertCloudState (snapshot : JS) : M unit :=
  fun w =>
    call (EvUpsertCloudState snapshot (lock_cell w))
      (fun tr => cloud_upsert env tr snapshot) w.

Definition getCloudState : M JS := call EvGetCloudState (cloud_get env).

Definition classify (err : JS) : M CloudStatus :=
  onLine <- navigator_onLine_now ;;
  ret (if isNetworkOrServerError onLine err then Offline else Error).

Definition pushSnapshot (snapshot : JS) : M unit :=
  online <- getNetworkStatus ;;
  if negb online then
    setCloudStatus Offline ;;
    setPendingSnapshot snapshot
  else
    try_catch
      (setCloudStatus Syncing ;;
       upsertCloudState snapshot ;;
       clearPendingSnapshot ;;
       setCloudStatus Ok)
      (fun err =>
         st <- classify err ;;
         setCloudStatus st ;;
         setPendingSnapshot snapshot).

Definition is_auth_token_key (key : string) : bool :=
  Js.includes "sb-" key && Js.includes "-auth-token" key.

(** [supabaseKeys.some(key => ...)], with the [storedSessionData] it
    assigns: the first key whose content parses to a truthy value. *)
Fixpoint some_stored_session (supabaseKeys : list string) : M (bool * JS) :=
  match supabaseKeys with
  | [] => ret (false, JNull)
  | key :: rest =>
      found <- try_catch
                 (item <- LocalStorage.getItem key ;;
                  match item with
                  | Some text =>
                      if str_truthy item then
                        parsed <- parse text ;;
                        ret (if Js.truthy parsed then Some parsed else None)
                      else ret None
                  | None => ret None
                  end)
                 (fun _ => ret None) ;;
      match found with
      | Some parsed => ret (true, parsed)
      | None => some_stored_session rest
      end
  end.

Definition provider_of (sessionUser appMeta : JS) : JS :=
  Js.or
    (Js.or (Js.field "provider" appMeta)
       (Js.opt_field "provider"
          (let identities := Js.field "identities" sessionUser in
           if Js.nullish identities then JUndef else Js.opt_first identities)))
    JNull.

(** The argument of [setUser] built from a session user. *)
Definition user_of (sessionUser : JS) : User :=
  let meta := Js.coalesce (Js.field "user_metadata" sessionUser) (JObj []) in
  let appMeta := Js.coalesce (Js.field "app_metadata" sessionUser) (JObj []) in
  mkUser
    (Js.coalesce (Js.field "email" sessionUser) JNull)
    (Js.or (Js.or (Js.field "full_name" meta) (Js.field "name" meta)) JNull)
    (Js.or (Js.or (Js.field "avatar_url" meta) (Js.field "picture" meta)) JNull)
    (provider_of sessionUser appMeta).

Definition no_user : User := mkUser JNull JNull JNull JNull.

(** [initForSession], lines 112-168: the application started offline. *)
Definition initOffline : M unit :=
  allKeys <- LocalStorage.keys ;;
  let supabaseKeys := List.filter is_auth_token_key allKeys in
  stored <- some_stored_session supabaseKeys ;;
  let hasStoredSession := fst stored in
  let storedSessionData := snd stored in
  (if hasStoredSession && Js.truthy storedSessionData then
     setCloudMode Cloud ;;
     let session := storedSessionData in
     let sessionUser :=
       Js.or (Js.opt_field "user" (Js.field "currentSession" session))
         (Js.field "user" session) in
     if Js.truthy sessionUser && negb (Js.truthy (Js.field "is_anonymous" sessionUser))
     then setUser (user_of sessionUser)
     else ret tt
   else setCloudMode Guest) ;;
  setCloudStatus Offline ;;
  set_initializedRef true ;;
  setCloudSyncReady.

(** The loop of lines 184-192: the first [parsed.currentSession] that is
    truthy, among the keys whose content parses. *)
Fixpoint find_current_session (storedKeys : list string) : M JS :=
  match storedKeys with
  | [] => ret JNull
  | key :: rest =>
      found <- try_catch
                 (item <- LocalStorage.getItem key ;;
                  parsed <- parse (if str_truthy item then default EmptyString item
                                   else EmptyString) ;;
                  let current := Js.opt_field "currentSession" parsed in
                  ret (if Js.truthy current then Some current else None))
                 (fun _ => ret None) ;;
      match found with
      | Some current => ret current
      | None => find_current_session rest
      end
  end.

(** Lines 170-193. *)
Definition resolveSession : M JS :=
  try_catch
    (call EvGetSession (auth_getSession env))
    (fun _ =>
       allKeys <- LocalStorage.keys ;;
       find_current_session (List.filter is_auth_token_key allKeys)).

(** Lines 197-212; [true] when the abandoned session was signed out and the
    page reloaded. *)
Definition checkPendingOtp (session : JS) : M bool :=
  if Js.truthy session then
    pendingOtp <- LocalStorage.getItem "auth.pendingOtpVerification" ;;
    match pendingOtp with
    | Some text =>
        if str_truthy pendingOtp then
          t <- now ;;
          match Js.parseInt text with
          | Some timestamp =>
              if 10 * 60 * 1000 <? t - timestamp then
                LocalStorage.removeItem "auth.pendingOtpVerification" ;;
                call EvSignOut (auth_signOut env) ;;
                emit EvReload ;;
                ret true
              else ret false
          | None => ret false
          end
        else ret false
    | None => ret false
    end
  else ret false.

(** [supabase.auth.signInAnonymously()] followed by the test of its
    [error] field; [true] when there is none. *)
Definition signInAnonymously_ok : M bool :=
  result <- call EvSignInAnonymously (auth_signInAnonymously env) ;;
  anonError <- get_field "error" result ;;
  ret (negb (Js.truthy anonError)).

(** The wipe of lines 249-256 and 476-489. *)
Definition wipe_local_data : M unit :=
  replaceAllData (JObj [("schemaVersion", JNum 1)]) ;;
  try_catch (LocalStorage.removeItem SEEN_KEY) (fun _ => ret tt) ;;
  setWelcomeSeen false.

(** Lines 214-287: no session. *)
Definition initNoSession (isOnline : bool) : M unit :=
  persisted <- LocalStorage.getItem "app.wasAuthenticated" ;;
  if bool_decide (persisted = Some "true") then
    setSessionExpired true ;;
    setCloudMode Guest ;;
    setCloudStatus Idle ;;
    set_initializedRef true ;;
    setCloudSyncReady
  else
    s <- get_store ;;
    let currentMode := cloudMode s in
    let currentUser := user s in
    let hasExistingCloudSession :=
      is_cloud currentMode && Js.truthy (email currentUser) in
    if DEV env && hasExistingCloudSession then
      emit (EvSetTimeout 500)
    else
      let wasAuthenticated :=
        is_cloud currentMode && Js.truthy (email currentUser) in
      (if wasAuthenticated then
         clearPendingSnapshot ;;
         clearState ;;
         wipe_local_data
       else ret tt) ;;
      setUser no_user ;;
      created <- (if isOnline then
                    try_catch signInAnonymously_ok (fun _ => ret false)
                  else ret false) ;;
      if created then ret tt
      else
        setCloudMode Guest ;;
        setCloudStatus Idle ;;
        set_initializedRef false ;;
        setCloudSyncReady.

(** Lines 346-385: what is done with the answer of the pull. *)
Definition applyCloud (session cloud : JS) : M unit :=
  (if Js.truthy cloud then
     completed <- LocalStorage.getItem "app.onboarding.completed.v2" ;;
     (if negb (bool_decide (completed = Some "true"))
         && Js.truthy (Js.field "welcomeSeen" cloud)
      then
        LocalStorage.setItem "app.onboarding.completed.v2" "true" ;;
        t <- now ;;
        LocalStorage.setItem "app.onboarding.timestamp.v2" (pretty t)
      else ret tt) ;;
     replaceAllData cloud ;;
     try_catch
       (sessionUser <- get_field "user" session ;;
        userId <- get_field "id" sessionUser ;;
        sub <- call (EvGetSubscription userId)
                 (fun tr => subscription_get env tr userId) ;;
        setSubscription sub)
       (fun _ => ret tt) ;;
     updateLastAuthTimestamp
   else
     localSnapshot <- getSnapshot ;;
     upsertCloudState localSnapshot ;;
     updateLastAuthTimestamp) ;;
  setCloudStatus Ok ;;
  set_initializedRef true ;;
  setCloudSyncReady ;;
  emit EvInitializePushNotifications.

(** Lines 342-385: nothing pending, pull from the cloud. *)
Definition pullFromCloud (session : JS) : M unit :=
  cloud <- getCloudState ;;
  applyCloud session cloud.

(** Lines 331-385: the body of the [try]. *)
Definition syncBody (session : JS) : M unit :=
  setCloudStatus Syncing ;;
  pending <- getPendingSnapshot ;;
  if Js.truthy pending then
    pushSnapshot pending ;;
    set_initializedRef true
  else pullFromCloud session.

(** Lines 386-391: the [catch]. *)
Definition syncFailed (err : JS) : M unit :=
  st <- classify err ;;
  setCloudStatus st ;;
  snapshot <- getSnapshot ;;
  setPendingSnapshot snapshot ;;
  set_initializedRef true ;;
  setCloudSyncReady.

(** Lines 330-394: the section protected by the lock. *)
Definition syncLocked (session : JS) : M unit :=
  try_finally (try_catch (syncBody session) syncFailed) releaseSyncLock.

(** Lines 289-309: the identity of the session, its breadcrumbs, cloud
    mode. *)
Definition identify (session : JS) : M unit :=
  sessionUser <- get_field "user" session ;;
  _ <- get_field "id" sessionUser ;;
  setUser (user_of sessionUser) ;;
  (if Js.truthy (Js.field "email" sessionUser)
      && negb (Js.truthy (Js.field "is_anonymous" sessionUser))
   then
     LocalStorage.setItem "app.wasAuthenticated" "true" ;;
     LocalStorage.setItem "app.lastAuthEmail"
       (Js.to_String (Js.field "email" sessionUser)) ;;
     let provider :=
       provider_of sessionUser
         (Js.coalesce (Js.field "app_metadata" sessionUser) (JObj [])) in
     if Js.truthy provider then
       LocalStorage.setItem "app.lastAuthProvider" (Js.to_String provider)
     else ret tt
   else ret tt) ;;
  setCloudMode Cloud.

(** Lines 321-395: the lock, then the protected section. *)
Definition syncUnderLock (session : JS) : M unit :=
  lockAcquired <- acquireSyncLock ;;
  if negb lockAcquired then
    setCloudStatus Ok ;;
    set_initializedRef true ;;
    setCloudSyncReady
  else syncLocked session.

(** Lines 289-395: a session was found. *)
Definition initWithSession (session : JS) : M unit :=
  identify session ;;
  networkStatus <- getNetworkStatus ;;
  if negb networkStatus then
    setCloudStatus Offline ;;
    snapshot <- getSnapshot ;;
    setPendingSnapshot snapshot ;;
    set_initializedRef true ;;
    setCloudSyncReady
  else syncUnderLock session.

Definition initForSession : M unit :=
  isOnline <- getNetworkStatus ;;
  if negb isOnline then initOffline
  else
    session <- resolveSession ;;
    abandoned <- checkPendingOtp session ;;
    if abandoned then ret tt
    else if negb (Js.truthy session) then initNoSession isOnline
    else initWithSession session.

Definition pushNow : M unit :=
  snapshot <- getSnapshot ;;
  pushSnapshot snapshot.

(** The connectivity listener, lines 402-428. *)
Definition onOnline : M unit :=
  w <- get_world ;;
  if negb (initializedRef w) then ret tt
  else
    pending <- getPendingSnapshot ;;
    if Js.truthy pending then pushSnapshot pending else ret tt.

Definition onOffline : M unit :=
  setCloudStatus Offline ;;
  snapshot <- getSnapshot ;;
  setPendingSnapshot snapshot.

Definition networkListener (isOnline : bool) : M unit :=
  if isOnline then onOnline else onOffline.

(** One tick of the 30 s retry timer, lines 431-446. *)
Definition retryTick : M unit :=
  w <- get_world ;;
  if negb (is_cloud (cloudMode (store w))) || negb (initializedRef w)
  then ret tt
  else if negb (is_error (cloudStatus (store w))) then ret tt
  else
    pending <- getPendingSnapshot ;;
    if negb (Js.truthy pending) then ret tt else pushSnapshot pending.

(** The [SIGNED_OUT] branch of the auth listener, lines 453-516. *)
Definition onSignedOut : M unit :=
  oauthTransition <- LocalStorage.getItem "app.oauthTransition" ;;
  skip <- match oauthTransition with
          | Some text =>
              if str_truthy oauthTransition then
                t <- now ;;
                if match Js.parseInt text with
                   | Some started => t - started <? 120000
                   | None => false
                   end
                then ret true
                else LocalStorage.removeItem "app.oauthTransition" ;; ret false
              else ret false
          | None => ret false
          end ;;
  if (skip : bool) then ret tt
  else
    persistedAuth <- LocalStorage.getItem "app.wasAuthenticated" ;;
    if str_truthy persistedAuth then
      setSessionExpired true ;;
      setCloudMode Guest ;;
      setCloudStatus Idle
    else
      emit EvDeactivateToken ;;
      emit EvCleanupPushNotifications ;;
      clearPendingSnapshot ;;
      clearState ;;
      clearSubscription ;;
      emit EvClearSubscriptionCache ;;
      wipe_local_data ;;
      setUser no_user ;;
      setCloudMode Guest ;;
      setCloudStatus Idle ;;
      set_initializedRef false ;;
      try_catch
        (created <- signInAnonymously_ok ;;
         if created then ret tt else setCloudSyncReady)
        (fun _ => setCloudSyncReady).

End Program.

(** ** The language detector (i18n configuration)

    [navigator.language] is an argument. *)

Module customDetector.

Definition supported : list string := ["es"; "en"; "pt"; "fr"].

(** [['es', 'en', 'pt', 'fr'].includes(lng)] *)
Definition is_supported (lng : string) : bool := existsb (String.eqb lng) supported.

(** [s.split('-')[0]] *)
Fixpoint before_dash (s : string) : string :=
  match s with
  | String c rest =>
      if Ascii.eqb c "-" then EmptyString else String c (before_dash rest)
  | EmptyString => EmptyString
  end.

Definition lookup (navigator_language : string) : M string :=
  stored <- LocalStorage.getItem "app_language" ;;
  if str_truthy stored && is_supported (default EmptyString stored)
  then ret (default EmptyString stored)
  else
    let browserLang := before_dash navigator_language in
    if is_supported browserLang then ret browserLang
    else ret "es".

Definition cacheUserLanguage (lng : string) : M unit :=
  LocalStorage.setItem "app_language" lng.

End customDetector.

(** ** The frame of the application (App.tsx, lines 65-119) *)

Module AppFrame.

Inductive BannerCall := showBanner | hideBanner.

Definition isFormRoute (pathname : string) : bool :=
  String.prefix "/settings/" pathname
  || String.prefix "/profile/subscription" pathname
  || String.prefix "/onboarding" pathname.

Definition isNoBannerRoute (pathname : string) : bool :=
  String.prefix "/onboarding" pathname.

(** The body of the effect, lines 78-86; [None]: no call. *)
Definition bannerEffect (native isPro : bool) (pathname : string) : option BannerCall :=
  if negb native then None
  else if isFormRoute pathname && negb isPro && negb (isNoBannerRoute pathname)
       then Some showBanner
       else Some hideBanner.

(** [!isFormRoute && <TopHeader />], [!isFormRoute && <BottomBar />] *)
Definition chromeRendered (pathname : string) : bool := negb (isFormRoute pathname).

End AppFrame.

(** ** A reference [JSON.parse]

    The properties below hold for every [JSON_parse]; the concrete scenarios
    use this parser of the JSON fragment the application writes: objects,
    arrays, strings with the simple escapes, integers and the three
    literals.  Anything else is rejected as a syntax error. *)

Module Json.

Definition is_ws (c : ascii) : bool :=
  let n := N_of_ascii c in
  ((n =? 32) || (n =? 9) || (n =? 10) || (n =? 13))%N.

Fixpoint skip_ws (s : string) : string :=
  match s with
  | String c rest => if is_ws c then skip_ws rest else s
  | EmptyString => s
  end.

(** The body of a string literal, after its opening quote. *)
Fixpoint string_body (s : string) : option (string * string) :=
  match s with
  | EmptyString => None
  | String c rest =>
      let n := N_of_ascii c in
      if (n =? 34)%N then Some (EmptyString, rest)
      else if (n <? 32)%N then None
      else if (n =? 92)%N then
        match rest with
        | String e rest' =>
            let m := N_of_ascii e in
            let unescaped :=
              if (m =? 34)%N then Some Js.dquote
              else if (m =? 92)%N then Some Js.backslash
              else if (m =? 47)%N then Some e
              else if (m =? 98)%N then Some (ascii_of_N 8)
              else if (m =? 116)%N then Some (ascii_of_N 9)
              else if (m =? 110)%N then Some (ascii_of_N 10)
              else if (m =? 102)%N then Some (ascii_of_N 12)
              else if (m =? 114)%N then Some (ascii_of_N 13)
              else None in
            match unescaped, string_body rest' with
            | Some u, Some (body, after) => Some (String u body, after)
            | _, _ => None
            end
        | EmptyString => None
        end
      else
        match string_body rest with
        | Some (body, after) => Some (String c body, after)
        | None => None
        end
  end.

Fixpoint digits (acc : Z) (s : string) : Z * string :=
  match s with
  | String c rest =>
      match Js.digit_of c with
      | Some d => digits (10 * acc + d) rest
      | None => (acc, s)
      end
  | EmptyString => (acc, s)
  end.

Definition ends_number (s : string) : bool :=
  match s with
  | String c _ =>
      let n := N_of_ascii c in
      negb ((n =? 46) || (n =? 101) || (n =? 69))%N
  | EmptyString => true
  end.

(** An integer without leading zeros, fraction or exponent. *)
Definition natural (s : string) : option (Z * string) :=
  match s with
  | String c rest =>
      match Js.digit_of c with
      | Some 0 =>
          match rest with
          | String c' _ =>
              match Js.digit_of c' with
              | Some _ => None
              | None => if ends_number rest then Some (0, rest) else None
              end
          | EmptyString => Some (0, rest)
          end
      | Some d =>
          let r := digits d rest in
          if ends_number (snd r) then Some r else None
      | None => None
      end
  | EmptyString => None
  end.

Definition literal (word : string) (v : JS) (s : string) : option (JS * string) :=
  if String.prefix word s
  then Some (v, String.substring (String.length word)
                  (String.length s - String.length word) s)
  else None.

Fixpoint value (fuel : nat) (s : string) : option (JS * string) :=
  match fuel with
  | O => None
  | S fuel' =>
      match skip_ws s with
      | String c rest =>
          let n := N_of_ascii c in
          if (n =? 123)%N then
            match skip_ws rest with
            | String c' rest' =>
                if (N_of_ascii c' =? 125)%N then Some (JObj [], rest')
                else members fuel' [] rest
            | EmptyString => None
            end
          else if (n =? 91)%N then
            match skip_ws rest with
            | String c' rest' =>
                if (N_of_ascii c' =? 93)%N then Some (JArr [], rest')
                else elements fuel' [] rest
            | EmptyString => None
            end
          else if (n =? 34)%N then
            match string_body rest with
            | Some (body, after) => Some (JStr body, after)
            | None => None
            end
          else if (n =? 45)%N then
            match natural rest with
            | Some (z, after) => Some (JNum (- z), after)
            | None => None
            end
          else if (n =? 116)%N then literal "true" (JBool true) (String c rest)
          else if (n =? 102)%N then literal "false" (JBool false) (String c rest)
          else if (n =? 110)%N then literal "null" JNull (String c rest)
          else
            match natural (String c rest) with
            | Some (z, after) => Some (JNum z, after)
            | None => None
            end
      | EmptyString => None
      end
  end
with elements (fuel : nat) (acc : list JS) (s : string) : option (JS * string) :=
  match fuel with
  | O => None
  | S fuel' =>
      match value fuel' s with
      | Some (v, after) =>
          match skip_ws after with
          | String c rest =>
              if (N_of_ascii c =? 44)%N then elements fuel' (acc ++ [v]) rest
              else if (N_of_ascii c =? 93)%N then Some (JArr (acc ++ [v]), rest)
              else None
          | EmptyString => None
          end
      | None => None
      end
  end
with members (fuel : nat) (acc : list (string * JS)) (s : string)
  : option (JS * string) :=
  match fuel with
  | O => None
  | S fuel' =>
      match skip_ws s with
      | String q rest =>
          if (N_of_ascii q =? 34)%N then
            match string_body rest with
            | Some (key, after) =>
                match skip_ws after with
                | String colon rest' =>
                    if (N_of_ascii colon =? 58)%N then
                      match value fuel' rest' with
                      | Some (v, after') =>
                          match skip_ws after' with
                          | String c rest'' =>
                              if (N_of_ascii c =? 44)%N
                              then members fuel' (Js.set_field key v acc) rest''
                              else if (N_of_ascii c =? 125)%N
                              then Some (JObj (Js.set_field key v acc), rest'')
                              else None
                          | EmptyString => None
                          end
                      | None => None
                      end
                    else None
                | EmptyString => None
                end
            | None => None
            end
          else None
      | EmptyString => None
      end
  end.

Definition parse (s : string) : option JS :=
  match value (2 * String.length s + 2) s with
  | Some (v, after) =>
      match skip_ws after with
      | EmptyString => Some v
      | String _ _ => None
      end
  | None => None
  end.

End Json.

(** ** The failure classifier, in the words of its specification *)

Definition network_failure_patterns : list string :=
  [ "failed to fetch";            (* fetch failure *)
    "err_name_not_resolved";      (* DNS resolution failure *)
    "networkerror";               (* generic network error *)
    "internal server error"; "bad gateway"; "service unavailable";
    "gateway timeout";            (* server-error texts *)
    "timeout";
    "econnrefused"; "econnreset"  (* connection refused / reset *) ].



(** ** The sync lock, in the words of its specification

    A lock record is held at time [t] when its timestamp is less than
    [SYNC_LOCK_TIMEOUT] milliseconds old. *)

Definition lock_held (t : Z) (st : Storage) : Prop :=
  exists text lockTimestamp,
    items st !! SYNC_LOCK_KEY = Some text
    /\ Js.parseInt text = Some lockTimestamp
    /\ t - lockTimestamp < 5000.

(** ** Worlds after a step

    The effect of a handler is stated as the world it leaves.  [try_set] and
    [try_remove] are the effect on localStorage of a [setItem] and of a
    [removeItem] whose exception is caught and ignored. *)

Definition try_set (k v : string) (st : Storage) : Storage :=
  match mode st with
  | Working => mkStorage (<[k := v]> (items st)) Working
  | _ => st
  end.

Definition try_remove (k : string) (st : Storage) : Storage :=
  match mode st with
  | Denied => st
  | m => mkStorage (delete k (items st)) m
  end.

Definition on_storage (f : Storage -> Storage) (w : World) : World :=
  mkWorld (f (localStorage w)) (store w) (initializedRef w) (trace w).

Definition on_store (f : Store -> Store) (w : World) : World :=
  mkWorld (localStorage w) (f (store w)) (initializedRef w) (trace w).

Definition with_initializedRef (b : bool) (w : World) : World :=
  mkWorld (localStorage w) (store w) b (trace w).

(** [events] is newest first, like the trace. *)
Definition logged (events : list Event) (w : World) : World :=
  mkWorld (localStorage w) (store w) (initializedRef w) (events ++ trace w).

(** The text written for a document by [saveState] / [setPendingSnapshot]. *)
Definition stored_text (doc : JS) : string := Js.to_String (Js.JSON_stringify doc).

(** What [loadState] and [getPendingSnapshot] read from a storage. *)


Definition readable_text (k : string) (st : Storage) : option string :=
  match mode st with
  | Denied => None
  | _ =>
      match items st !! k with
      | Some text => if String.eqb text EmptyString then None else Some text
      | None => None
      end
  end.

Definition pending_in (env : Env) (st : Storage) : JS :=
  match readable_text KEY st with
  | Some text => default JNull (JSON_parse env text)
  | None => JNull
  end.

(** The world in which [pushSnapshot] awaits the remote upsert. *)
Definition upsert_issued (snapshot : JS) (w : World) : World :=
  logged [EvUpsertCloudState snapshot (lock_cell w)]
    (on_store (with_cloudStatus Syncing) (logged [EvGetNetworkStatus] w)).

(** The value returned by [getSnapshot]. *)
Definition snapshot_of (s : Store) : JS :=
  JObj [("schemaVersion", JNum 1);
        ("welcomeSeen", welcomeSeen s);
        ("security", security s)].

(** A record that [loadState] accepts: readable, not empty, parsed by
    [JSON.parse] to a value whose [schemaVersion] is truthy. *)
Definition accepted_record (env : Env) (st : Storage) (v : JS) : Prop :=
  exists text,
    readable_text STORAGE_KEY st = Some text
    /\ JSON_parse env text = Some v
    /\ Js.truthy (Js.field "schemaVersion" v) = true.

(** The mirror of [data.welcomeSeen] to [SEEN_KEY] made by
    [replaceAllData]: nothing when the field is [undefined]. *)
Definition mirror_of (seen : JS) (st : Storage) : Storage :=
  match seen with
  | JUndef => st
  | _ => if Js.truthy seen then try_set SEEN_KEY "1" st else try_remove SEEN_KEY st
  end.

(** Whether [signInAnonymously] answered without an [error]. *)
Definition anonymous_session_created (answer : Res JS) : bool :=
  match answer with
  | Return result =>
      negb (Js.nullish result) && negb (Js.truthy (Js.field "error" result))
  | Throw _ => false
  end.


(** ** Relations between the world before and after a computation *)

Definition preserves {A} (R : World -> World -> Prop) (c : M A) : Prop :=
  forall w, R w (snd (c w)).

Definition is_upsert (ev : Event) : bool :=
  match ev with
  | EvUpsertCloudState _ _ => true
  | _ => false
  end.

(** [footprint P]: the storage mode and the lock cell are untouched, the
    trace only grows, and every new event satisfies [P] for the content of
    the lock cell. *)
Definition footprint (P : option string -> Event -> Prop) (w w' : World) : Prop :=
  mode (localStorage w') = mode (localStorage w)
  /\ items (localStorage w') !! SYNC_LOCK_KEY = items (localStorage w) !! SYNC_LOCK_KEY
  /\ exists events : list Event,
       trace w' = (events ++ trace w)%list /\ Forall (P (lock_cell w)) events.


(** Every upsert was issued with [cell] in the lock cell. *)
Definition upsert_under (cell : option string) (ev : Event) : Prop :=
  forall snapshot lock, ev = EvUpsertCloudState snapshot lock -> lock = cell.







(** Whether biometric authentication is on: a missing flag is off. *)
Definition biometric_on (s : Store) : bool :=
  Js.truthy (Js.coalesce (Js.opt_field "biometricEnabled" (security s)) (JBool false)).

(** The world left by [updateLastAuthTimestamp] at time [t]. *)
Definition last_auth_stamped (t : Z) (w : World) : World :=
  let sec :=
    JObj [("biometricEnabled",
           Js.coalesce (Js.opt_field "biometricEnabled" (security (store w)))
             (JBool false));
          ("lastAuthTimestamp", JNum t)] in
  on_store (with_security sec)
    (on_storage
       (try_set STORAGE_KEY (stored_text (store_json (with_security sec (store w)))))
       w).

(** The part of the world that the remote data replaces, and what it must
    leave alone. *)
Definition remote_installed (cloud : JS) (w w' : World) : Prop :=
  cloudStatus (store w') = Ok
  /\ initializedRef w' = true
  /\ schemaVersion (store w') = JNum 1
  /\ welcomeSeen (store w')
     = Js.coalesce (Js.field "welcomeSeen" cloud) (JBool false)
  /\ Js.field "biometricEnabled" (security (store w'))
     = Js.coalesce
         (Js.opt_field "biometricEnabled"
            (Js.coalesce (Js.field "security" cloud) defaultSecurity))
         (JBool false)
  /\ items (localStorage w') !! KEY = items (localStorage w) !! KEY
  /\ mode (localStorage w') = mode (localStorage w)
  /\ exists events,
       trace w' = (events ++ trace w)%list
       /\ Forall (fun ev => is_upsert ev = false) events.

(** The world left by the guest fallback of lines 279-283. *)
Definition guest_fallback (w : World) : World :=
  on_store (with_cloudSyncReady (JBool true))
    (with_initializedRef false
       (on_store (fun s => with_cloudStatus Idle (with_cloudMode Guest s)) w)).

(** What a push must leave alone: the document in memory, the identity,
    the mode, the flag of the gate, the durable record and the lock cell. *)
Definition document_kept (w w' : World) : Prop :=
  snapshot_of (store w') = snapshot_of (store w)
  /\ user (store w') = user (store w)
  /\ cloudMode (store w') = cloudMode (store w)
  /\ initializedRef w' = initializedRef w
  /\ mode (localStorage w') = mode (localStorage w)
  /\ items (localStorage w') !! STORAGE_KEY = items (localStorage w) !! STORAGE_KEY
  /\ items (localStorage w') !! SYNC_LOCK_KEY
     = items (localStorage w) !! SYNC_LOCK_KEY.

(** ** Concrete scenarios *)

Definition scenario_env (online : bool) (upsert : Res unit) (cloud : JS) : Env :=
  mkEnv false Json.parse
    (fun _ => 1700000000000)
    (fun _ => online)
    (fun _ => online)
    (fun _ => Return JNull)
    (fun _ => Return tt)
    (fun _ => Return (JObj [("error", JNull)]))
    (fun _ => Return cloud)
    (fun _ _ => upsert)
    (fun _ _ => Return JNull).

Definition sample_store : Store :=
  mkStore (JNum 1) (JObj [("biometricEnabled", JBool true)]) (JBool true) []
    JNull false Cloud Ok (JBool true) "2025-01"
    (mkUser (JStr "ana@example.com") (JStr "Ana") JNull (JStr "google")).

Definition sample_snapshot : JS :=
  JObj [("schemaVersion", JNum 1); ("welcomeSeen", JBool true);
        ("security", JObj [("biometricEnabled", JBool false)])].

Definition scenario_world (m : StorageMode) (content : list (string * string))
    (initialized : bool) : World :=
  mkWorld (mkStorage (list_to_map content) m) sample_store initialized [].

Definition http_503 : JS :=
  JObj [("message", JStr "upstream unavailable"); ("status", JNum 503)].

Definition row_level_security_violation : JS :=
  JObj [("message", JStr "new row violates row-level security policy");
        ("code", JStr "42501")].

Definition online_env : Env := scenario_env true (Return tt) JNull.
Definition failing_env (err : JS) : Env := scenario_env true (Throw err) JNull.


(** A persisted record written by a later version of the schema. *)
Definition version_2_record : JS :=
  JObj [("schemaVersion", JNum 2); ("welcomeSeen", JBool true)].

Definition version_2_world : World :=
  scenario_world Working [(STORAGE_KEY, stored_text version_2_record)] false.



(** A lock written 1000 ms / 5000 ms before [Date.now()] of the scenarios. *)
Definition locked_world (lockTimestamp : Z) : World :=
  scenario_world Working [(SYNC_LOCK_KEY, pretty lockTimestamp)] true.

Definition sample_session : JS :=
  JObj [("user",
         JObj [("id", JStr "user-1");
               ("email", JStr "ana@example.com");
               ("app_metadata", JObj [("provider", JStr "google")]);
               ("user_metadata", JObj [("full_name", JStr "Ana")])])].

(** A signed-in user; [network] answers the connectivity queries. *)
Definition signed_in_env (network : list Event -> bool) (cloud : JS) : Env :=
  mkEnv false Json.parse
    (fun _ => 1700000000000)
    (fun _ => true)
    network
    (fun _ => Return sample_session)
    (fun _ => Return tt)
    (fun _ => Return (JObj [("error", JNull)]))
    (fun _ => Return cloud)
    (fun _ _ => Return tt)
    (fun _ _ => Return JNull).


Definition fresh_store : Store :=
  mkStore (JNum 1) defaultSecurity JUndef [] JNull false Guest Idle (JBool true)
    "2025-01" no_user.

(** A tab that starts with the given localStorage. *)
Definition startup_world (content : list (string * string)) : World :=
  mkWorld (mkStorage (list_to_map content) Working) fresh_store false [].


(** The lock cell holds the lock of this tab and a change is pending. *)
Definition locked_pending_world : World :=
  scenario_world Working
    [(SYNC_LOCK_KEY, "1700000000000"); (KEY, stored_text sample_snapshot)]
    false.

(** Another context, whose clock reads [t]. *)
Definition clock_env (t : Z) : Env :=
  mkEnv false Json.parse
    (fun _ => t)
    (fun _ => true)
    (fun _ => true)
    (fun _ => Return JNull)
    (fun _ => Return tt)
    (fun _ => Return (JObj [("error", JNull)]))
    (fun _ => Return JNull)
    (fun _ _ => Return tt)
    (fun _ _ => Return JNull).

(** The remote store rejects the pull with [err]. *)
Definition pull_failing_env (err : JS) : Env :=
  mkEnv false Json.parse
    (fun _ => 1700000000000)
    (fun _ => true)
    (fun _ => true)
    (fun _ => Return sample_session)
    (fun _ => Return tt)
    (fun _ => Return (JObj [("error", JNull)]))
    (fun _ => Throw err)
    (fun _ _ => Return tt)
    (fun _ _ => Return JNull).


(** A tab restarted after a sign-in stopped at the one-time code, the
    marker written at [started]. *)
Definition otp_world (started : string) : World :=
  startup_world [("auth.pendingOtpVerification", started)].


(** A tab in the middle of an OAuth redirect started at [started]. *)
Definition oauth_world (started : string) : World :=
  scenario_world Working
    [("app.oauthTransition", started); (KEY, stored_text sample_snapshot)] true.

(** * Properties *)

Local Open Scope list_scope.

Example stringify_default_state :
  Js.JSON_stringify
    (JObj [("schemaVersion", JNum 1); ("welcomeSeen", JUndef);
           ("security", JObj [("biometricEnabled", JBool false)])])
  = JStr (String.concat (String Js.dquote EmptyString)
            ["{"; "schemaVersion"; ":1,"; "security"; ":{"; "biometricEnabled";
             ":false}}"]).
Proof. reflexivity. Qed.

(** The store hydrated from a record of another schema version keeps that
    version until one of its operations normalises it. *)
Example create_keeps_loaded_version :
  fst (create (scenario_env true (Return tt) JNull) "2025-01"
         (scenario_world Working
            [(STORAGE_KEY, stored_text (JObj [("schemaVersion", JNum 2)]))] false))
  = Return (mkStore (JNum 2) JUndef JUndef [] JNull false Guest Idle
              (JBool false) "2025-01" no_user).
Proof. reflexivity. Qed.

Example parseInt_examples :
  Js.parseInt "1700000000123" = Some 1700000000123
  /\ Js.parseInt "  -42px" = Some (-42)
  /\ Js.parseInt "abc" = None
  /\ Js.parseInt EmptyString = None.
Proof. repeat split. Qed.

Example includes_examples :
  Js.includes "timeout" (Js.toLowerCase "Gateway Timeout") = true
  /\ Js.includes "econnreset" "read econnrese" = false.
Proof. split; reflexivity. Qed.

Section Classifier.

Lemma orb_chain_patterns (msg : string) :
  existsb (fun p => Js.includes p msg) network_failure_patterns
  = (Js.includes "failed to fetch" msg ||
     Js.includes "err_name_not_resolved" msg ||
     Js.includes "networkerror" msg ||
     Js.includes "internal server error" msg ||
     Js.includes "bad gateway" msg ||
     Js.includes "service unavailable" msg ||
     Js.includes "gateway timeout" msg ||
     Js.includes "timeout" msg ||
     Js.includes "econnrefused" msg ||
     Js.includes "econnreset" msg).
Proof.
  unfold network_failure_patterns, existsb.
  rewrite orb_false_r. rewrite !orb_assoc. reflexivity.
Qed.

Lemma isNetworkOrServerError_unfold (onLine : bool) (err : JS) :
  isNetworkOrServerError onLine err
  = negb onLine
    || existsb (fun p => Js.includes p (failure_message err)) network_failure_patterns
    || match failure_status err with
       | JNum n => (500 <=? n) && (n <? 600)
       | _ => false
       end.
Proof.
  unfold isNetworkOrServerError. rewrite orb_chain_patterns.
  rewrite !orb_assoc. reflexivity.
Qed.


End Classifier.

Section Lock.

Variable env : Env.

Lemma lock_held_fresh (t : Z) (st : Storage) :
  lock_held t st
  <-> exists text,
        items st !! SYNC_LOCK_KEY = Some text
        /\ (str_truthy (Some text) && lock_is_fresh t text) = true.
Proof.
  unfold lock_held, lock_is_fresh. split.
  - intros (text & ts & Hget & Hparse & Hage).
    exists text. split; [exact Hget |].
    rewrite Hparse. apply andb_true_iff. split.
    + destruct text; [discriminate Hparse | reflexivity].
    + apply Z.ltb_lt. unfold SYNC_LOCK_TIMEOUT. lia.
  - intros (text & Hget & Hfresh).
    apply andb_true_iff in Hfresh as [_ Hfresh].
    destruct (Js.parseInt text) as [ts |] eqn:Hparse; [| discriminate].
    exists text, ts. apply Z.ltb_lt in Hfresh. unfold SYNC_LOCK_TIMEOUT in Hfresh.
    split; [exact Hget | split; [exact Hparse | lia]].
Qed.

(** The behaviour of [acquireSyncLock] in each storage mode. *)
Lemma acquireSyncLock_run (w : World) :
  let t := Date_now env (trace w) in
  acquireSyncLock env w =
  match mode (localStorage w) with
  | Denied => (Return true, w)
  | _ =>
      match items (localStorage w) !! SYNC_LOCK_KEY with
      | Some text =>
          if str_truthy (Some text) && lock_is_fresh t text then (Return false, w)
          else (Return true, on_storage (try_set SYNC_LOCK_KEY (pretty t)) w)
      | None => (Return true, on_storage (try_set SYNC_LOCK_KEY (pretty t)) w)
      end
  end.
Proof.
  destruct w as [[it m] st ini tr].
  unfold acquireSyncLock, try_catch, bind, now, LocalStorage.getItem,
    LocalStorage.setItem, put_storage, ret, on_storage, try_set.
  cbn -[str_truthy lock_is_fresh pretty].
  destruct m; cbn -[str_truthy lock_is_fresh pretty]; try reflexivity.
  - destruct (it !! SYNC_LOCK_KEY) as [text |]; [| reflexivity].
    destruct (str_truthy (Some text) && lock_is_fresh (Date_now env tr) text);
      reflexivity.
  - destruct (it !! SYNC_LOCK_KEY) as [text |]; [| reflexivity].
    destruct (str_truthy (Some text) && lock_is_fresh (Date_now env tr) text);
      reflexivity.
Qed.

(** C5, as amended.  While localStorage works, [acquireSyncLock] succeeds
    exactly when no lock record younger than 5000 ms exists: a held lock
    makes it return [false] without writing; otherwise (no record, or a
    record aged 5000 ms or more, never released) it writes a record
    timestamped with the current time and returns [true].  When the storage
    access throws - every access of a denied storage, the write on an
    exhausted quota - it returns [true] and writes nothing. *)
Theorem acquireSyncLock_spec (w : World) :
  let t := Date_now env (trace w) in
  (mode (localStorage w) = Working ->
     (lock_held t (localStorage w) ->
        acquireSyncLock env w = (Return false, w))
     /\ (~ lock_held t (localStorage w) ->
           acquireSyncLock env w
           = (Return true,
              on_storage
                (fun st => mkStorage (<[SYNC_LOCK_KEY := pretty t]> (items st)) Working)
                w)))
  /\ (mode (localStorage w) = Denied ->
        acquireSyncLock env w = (Return true, w))
  /\ (mode (localStorage w) = QuotaExceeded ->
        (lock_held t (localStorage w) ->
           acquireSyncLock env w = (Return false, w))
        /\ (~ lock_held t (localStorage w) ->
              acquireSyncLock env w = (Return true, w))).
Proof.
  intros t. pose proof (acquireSyncLock_run w) as Hrun. cbv zeta in Hrun.
  fold t in Hrun. pose proof (lock_held_fresh t (localStorage w)) as Hheld.
  assert (Hfree : ~ lock_held t (localStorage w) ->
                  match items (localStorage w) !! SYNC_LOCK_KEY with
                  | Some text => str_truthy (Some text) && lock_is_fresh t text = false
                  | None => True
                  end).
  { intros Hlock.
    destruct (items (localStorage w) !! SYNC_LOCK_KEY) as [text |] eqn:Hget;
      [| exact I].
    destruct (str_truthy (Some text) && lock_is_fresh t text) eqn:Hfresh;
      [| reflexivity].
    exfalso. apply Hlock, Hheld. now exists text. }
  split; [intros Hmode; split; intros Hlock
         | split; [intros Hmode | intros Hmode; split; intros Hlock]];
    rewrite Hrun, Hmode; try reflexivity.
  - apply Hheld in Hlock as (text & Hget & Hfresh). now rewrite Hget, Hfresh.
  - apply Hfree in Hlock. unfold on_storage, try_set. rewrite Hmode.
    destruct (items (localStorage w) !! SYNC_LOCK_KEY) as [text |];
      [rewrite Hlock |]; reflexivity.
  - apply Hheld in Hlock as (text & Hget & Hfresh). now rewrite Hget, Hfresh.
  - apply Hfree in Hlock. unfold on_storage, try_set. rewrite Hmode.
    destruct (items (localStorage w) !! SYNC_LOCK_KEY) as [text |];
      [rewrite Hlock |]; reflexivity.
Qed.

End Lock.

Section Services.

Variable env : Env.

Lemma bind_Return {A B} (c : M A) (k : A -> M B) (w w' : World) (a : A) :
  c w = (Return a, w') -> bind c k w = k a w'.
Proof. intros H. unfold bind. now rewrite H. Qed.

Lemma modify_store_run (f : Store -> Store) (w : World) :
  modify_store f w = (Return tt, on_store f w).
Proof. reflexivity. Qed.

Lemma emit_run (ev : Event) (w : World) :
  emit ev w = (Return tt, logged [ev] w).
Proof. reflexivity. Qed.

Lemma call_run {A} (ev : Event) (answer : list Event -> Res A) (w : World) :
  call ev answer w = (answer (trace w), logged [ev] w).
Proof. reflexivity. Qed.

Lemma getNetworkStatus_run (w : World) :
  getNetworkStatus env w
  = (Return (network_status env (trace w)), logged [EvGetNetworkStatus] w).
Proof. reflexivity. Qed.

Lemma saveState_run (doc : JS) (w : World) :
  saveState doc w
  = (Return tt, on_storage (try_set STORAGE_KEY (stored_text doc)) w).
Proof.
  destruct w as [[it m] st ini tr]. unfold saveState, try_catch,
    LocalStorage.setItem, on_storage, try_set, put_storage, stored_text.
  destruct m; reflexivity.
Qed.

Lemma clearState_run (w : World) :
  clearState w = (Return tt, on_storage (try_remove STORAGE_KEY) w).
Proof.
  destruct w as [[it m] st ini tr]. unfold clearState, try_catch,
    LocalStorage.removeItem, on_storage, try_remove, put_storage.
  destruct m; reflexivity.
Qed.

Lemma setPendingSnapshot_run (doc : JS) (w : World) :
  setPendingSnapshot doc w
  = (Return tt, on_storage (try_set KEY (stored_text doc)) w).
Proof.
  destruct w as [[it m] st ini tr]. unfold setPendingSnapshot, try_catch,
    LocalStorage.setItem, on_storage, try_set, put_storage, stored_text.
  destruct m; reflexivity.
Qed.

Lemma clearPendingSnapshot_run (w : World) :
  clearPendingSnapshot w = (Return tt, on_storage (try_remove KEY) w).
Proof.
  destruct w as [[it m] st ini tr]. unfold clearPendingSnapshot, try_catch,
    LocalStorage.removeItem, on_storage, try_remove, put_storage.
  destruct m; reflexivity.
Qed.

Lemma getPendingSnapshot_run (w : World) :
  getPendingSnapshot env w = (Return (pending_in env (localStorage w)), w).
Proof.
  destruct w as [[it m] st ini tr].
  unfold getPendingSnapshot, try_catch, bind, LocalStorage.getItem, pending_in,
    readable_text, parse, str_truthy.
  cbn [mode items localStorage].
  destruct m; try reflexivity;
    (destruct (it !! KEY) as [text |]; [| reflexivity];
     destruct (String.eqb text EmptyString); [reflexivity |];
     cbn [negb]; destruct (JSON_parse env text); reflexivity).
Qed.

Lemma releaseSyncLock_run (w : World) :
  releaseSyncLock w = (Return tt, on_storage (try_remove SYNC_LOCK_KEY) w).
Proof.
  destruct w as [[it m] st ini tr]. unfold releaseSyncLock, try_catch,
    LocalStorage.removeItem, on_storage, try_remove, put_storage.
  destruct m; reflexivity.
Qed.

Lemma mirror_welcomeSeen_run (v : bool) (w : World) :
  mirror_welcomeSeen v w
  = (Return tt,
     on_storage (if v then try_set SEEN_KEY "1" else try_remove SEEN_KEY) w).
Proof.
  destruct w as [[it m] st ini tr]. unfold mirror_welcomeSeen, try_catch,
    LocalStorage.setItem, LocalStorage.removeItem, on_storage, try_set,
    try_remove, put_storage.
  destruct v, m; reflexivity.
Qed.

Lemma getSnapshot_run (w : World) :
  getSnapshot w = (Return (snapshot_of (store w)), w).
Proof. reflexivity. Qed.

End Services.

Section Push.

Variable env : Env.

Lemma upsertCloudState_run (snapshot : JS) (w : World) :
  upsertCloudState env snapshot w
  = (cloud_upsert env (trace w) snapshot,
     logged [EvUpsertCloudState snapshot (lock_cell w)] w).
Proof. reflexivity. Qed.

Lemma pushSnapshot_run (snapshot : JS) (w : World) :
  pushSnapshot env snapshot w =
  (Return tt,
   if network_status env (trace w) then
     match cloud_upsert env (EvGetNetworkStatus :: trace w) snapshot with
     | Return _ =>
         on_store (with_cloudStatus Ok)
           (on_storage (try_remove KEY) (upsert_issued snapshot w))
     | Throw err =>
         on_storage (try_set KEY (stored_text snapshot))
           (on_store
              (with_cloudStatus
                 (if isNetworkOrServerError
                       (navigator_onLine env (trace (upsert_issued snapshot w))) err
                  then Offline else Error))
              (upsert_issued snapshot w))
     end
   else
     on_storage (try_set KEY (stored_text snapshot))
       (on_store (with_cloudStatus Offline) (logged [EvGetNetworkStatus] w))).
Proof.
  unfold pushSnapshot.
  rewrite (bind_Return _ _ _ _ _ (getNetworkStatus_run env w)).
  destruct (network_status env (trace w)); cbn [negb].
  - unfold try_catch, bind, setCloudStatus.
    rewrite modify_store_run, upsertCloudState_run.
    cbn [trace logged on_store app].
    destruct (cloud_upsert env (EvGetNetworkStatus :: trace w) snapshot) as [[] | err].
    + rewrite clearPendingSnapshot_run. reflexivity.
    + unfold classify, navigator_onLine_now, bind, ret.
      rewrite modify_store_run, setPendingSnapshot_run. reflexivity.
  - unfold bind, setCloudStatus.
    rewrite modify_store_run, setPendingSnapshot_run. reflexivity.
Qed.


End Push.

Section DurableStore.

Variable env : Env.

Lemma loadState_run (w : World) :
  loadState env w =
  (Return
     match readable_text STORAGE_KEY (localStorage w) with
     | Some text =>
         match JSON_parse env text with
         | Some parsed =>
             if Js.truthy (Js.field "schemaVersion" parsed) then parsed else JNull
         | None => JNull
         end
     | None => JNull
     end, w).
Proof.
  destruct w as [[it m] st ini tr].
  unfold loadState, try_catch, bind, LocalStorage.getItem, readable_text, parse,
    str_truthy, get_field.
  cbn [mode items localStorage].
  destruct m; try reflexivity;
    (destruct (it !! STORAGE_KEY) as [text |]; [| reflexivity];
     destruct (String.eqb text EmptyString); [reflexivity |];
     cbn [negb]; destruct (JSON_parse env text) as [parsed |]; [| reflexivity];
     unfold ret, throw;
     destruct parsed; try reflexivity; cbn [Js.nullish];
     match goal with
     | |- context [Js.truthy ?v] => destruct (Js.truthy v); reflexivity
     end).
Qed.

(** C9, as amended.  [loadState] never throws and changes nothing.  It
    returns a record only when that record is readable, parses, and carries
    a truthy [schemaVersion]; a missing, empty, unreadable or unparsable
    record, and a record whose [schemaVersion] is missing or falsy, are
    reported as absent ([null]).  The value of a truthy [schemaVersion] is
    not compared with the supported version: every accepted record is
    returned as it is. *)
Theorem loadState_spec (w : World) :
  exists v,
    loadState env w = (Return v, w)
    /\ (v = JNull \/ accepted_record env (localStorage w) v)
    /\ (forall v', accepted_record env (localStorage w) v' -> v = v').
Proof.
  rewrite loadState_run. eexists. split; [reflexivity |].
  unfold accepted_record.
  destruct (readable_text STORAGE_KEY (localStorage w)) as [text |].
  - destruct (JSON_parse env text) as [parsed |] eqn:Hparse.
    + destruct (Js.truthy (Js.field "schemaVersion" parsed)) eqn:Hv.
      * split.
        -- right. exists text. auto.
        -- intros v' (text' & Hread & Hparse' & _).
           injection Hread as <-. congruence.
      * split; [now left |].
        intros v' (text' & Hread & Hparse' & Hv').
        injection Hread as <-. congruence.
    + split; [now left |].
      intros v' (text' & Hread & Hparse' & _).
      injection Hread as <-. congruence.
  - split; [now left |].
    intros v' (text' & Hread & _). discriminate.
Qed.

End DurableStore.

Section AppStore.

Variable env : Env.



Lemma try_set_lookup (k v : string) (st : Storage) :
  mode st = Working -> items (try_set k v st) !! k = Some v.
Proof. intros H. unfold try_set. rewrite H. cbn. apply lookup_insert_eq. Qed.

Lemma try_set_lookup_ne (k k' v : string) (st : Storage) :
  k <> k' -> items (try_set k v st) !! k' = items st !! k'.
Proof.
  intros H. unfold try_set. destruct (mode st); try reflexivity.
  cbn. now apply lookup_insert_ne.
Qed.

Lemma try_remove_lookup (k : string) (st : Storage) :
  mode st <> Denied -> items (try_remove k st) !! k = None.
Proof.
  intros H. unfold try_remove.
  destruct (mode st); try (now contradiction H); cbn; apply lookup_delete_eq.
Qed.

Lemma try_remove_lookup_ne (k k' : string) (st : Storage) :
  k <> k' -> items (try_remove k st) !! k' = items st !! k'.
Proof.
  intros H. unfold try_remove. destruct (mode st); try reflexivity;
    cbn; now apply lookup_delete_ne.
Qed.

Lemma try_set_mode (k v : string) (st : Storage) : mode (try_set k v st) = mode st.
Proof. unfold try_set. destruct (mode st) eqn:H; cbn; congruence. Qed.

Lemma try_remove_mode (k : string) (st : Storage) : mode (try_remove k st) = mode st.
Proof. unfold try_remove. destruct (mode st) eqn:H; cbn; congruence. Qed.

Lemma mirror_of_mode (seen : JS) (st : Storage) : mode (mirror_of seen st) = mode st.
Proof.
  unfold mirror_of. destruct seen; try reflexivity;
    match goal with
    | |- context [if ?b then _ else _] => destruct b
    end; auto using try_set_mode, try_remove_mode.
Qed.

Lemma mirror_of_lookup_ne (seen : JS) (k : string) (st : Storage) :
  SEEN_KEY <> k -> items (mirror_of seen st) !! k = items st !! k.
Proof.
  intros H. unfold mirror_of. destruct seen; try reflexivity;
    match goal with
    | |- context [if ?b then _ else _] => destruct b
    end; auto using try_set_lookup_ne, try_remove_lookup_ne.
Qed.



Lemma replaceAllData_run (data : JS) (w : World) :
  Js.nullish data = false ->
  replaceAllData data w
  = (Return tt,
     on_store
       (with_data (Js.coalesce (Js.field "welcomeSeen" data) (JBool false))
          (Js.coalesce (Js.field "security" data) defaultSecurity))
       (on_storage
          (fun st =>
             mirror_of (Js.field "welcomeSeen" data)
               (try_set STORAGE_KEY (stored_text (normalize data)) st))
          w)).
Proof.
  intros Hdata. unfold replaceAllData, bind, get_field.
  rewrite saveState_run, Hdata. unfold ret, mirror_of.
  destruct (Js.field "welcomeSeen" data) eqn:Hseen;
    try rewrite mirror_welcomeSeen_run; try reflexivity.
  all: rewrite modify_store_run; unfold on_store, on_storage; cbn;
    try reflexivity.
  all: match goal with
       | |- context [if ?b then _ else _] => destruct b
       end; reflexivity.
Qed.


End AppStore.

Section Connectivity.

Variable env : Env.

Lemma onOnline_run (w : World) :
  onOnline env w =
  if initializedRef w then
    if Js.truthy (pending_in env (localStorage w))
    then pushSnapshot env (pending_in env (localStorage w)) w
    else (Return tt, w)
  else (Return tt, w).
Proof.
  unfold onOnline, bind, get_world.
  destruct (initializedRef w); cbn [negb]; [| reflexivity].
  rewrite getPendingSnapshot_run.
  destruct (Js.truthy (pending_in env (localStorage w))); reflexivity.
Qed.

Lemma onOffline_run (w : World) :
  onOffline w
  = (Return tt,
     on_storage (try_set KEY (stored_text (snapshot_of (store w))))
       (on_store (with_cloudStatus Offline) w)).
Proof.
  unfold onOffline, bind, setCloudStatus.
  rewrite modify_store_run, getSnapshot_run, setPendingSnapshot_run.
  reflexivity.
Qed.


End Connectivity.

Section SignOut.

Variable env : Env.

Lemma getItem_run (k : string) (w : World) :
  mode (localStorage w) <> Denied ->
  LocalStorage.getItem k w = (Return (items (localStorage w) !! k), w).
Proof.
  intros H. unfold LocalStorage.getItem.
  destruct (mode (localStorage w)); try reflexivity. now contradiction H.
Qed.

Lemma setWelcomeSeen_run (v : bool) (w : World) :
  setWelcomeSeen v w
  = (Return tt,
     on_storage
       (fun st =>
          try_set STORAGE_KEY
            (stored_text (store_json (with_welcomeSeen (JBool v) (store w))))
            ((if v then try_set SEEN_KEY "1" else try_remove SEEN_KEY) st))
       (on_store (with_welcomeSeen (JBool v)) w)).
Proof.
  unfold setWelcomeSeen, bind, get_store.
  rewrite mirror_welcomeSeen_run, modify_store_run, saveState_run.
  reflexivity.
Qed.

(** The store left by the wipe of local data. *)
Lemma wipe_local_data_run (w : World) :
  wipe_local_data w
  = (Return tt,
     on_storage
       (fun st =>
          try_set STORAGE_KEY
            (stored_text
               (store_json
                  (with_welcomeSeen (JBool false)
                     (with_data (JBool false) defaultSecurity (store w)))))
            (try_remove SEEN_KEY
               (try_remove SEEN_KEY
                  (try_set STORAGE_KEY
                     (stored_text (normalize (JObj [("schemaVersion", JNum 1)])))
                     st))))
       (on_store
          (fun s => with_welcomeSeen (JBool false)
                      (with_data (JBool false) defaultSecurity s))
          w)).
Proof.
  unfold wipe_local_data, bind.
  rewrite replaceAllData_run by reflexivity.
  unfold try_catch at 1.
  change (LocalStorage.removeItem SEEN_KEY) with
    (fun w => LocalStorage.removeItem SEEN_KEY w).
  assert (Hrm : forall w0,
             match LocalStorage.removeItem SEEN_KEY w0 with
             | (Return a, w') => (Return a, w')
             | (Throw e, w') => ret tt w'
             end = (Return tt, on_storage (try_remove SEEN_KEY) w0)).
  { intros [[it m] st ini tr]. unfold LocalStorage.removeItem, on_storage,
      try_remove, put_storage. destruct m; reflexivity. }
  cbv beta. rewrite Hrm, setWelcomeSeen_run. reflexivity.
Qed.





End SignOut.

Section Footprint.

Variable env : Env.
Variable P : option string -> Event -> Prop.
Hypothesis P_other : forall cell ev, is_upsert ev = false -> P cell ev.

Lemma lock_cell_footprint (w w' : World) :
  footprint P w w' -> lock_cell w' = lock_cell w.
Proof. intros (Hm & Hl & _). unfold lock_cell. now rewrite Hm, Hl. Qed.

#[global] Instance footprint_preorder : PreOrder (footprint P).
Proof.
  split.
  - intros w. repeat split. exists []. split; [reflexivity | constructor].
  - intros w1 w2 w3 H12 H23.
    pose proof (lock_cell_footprint _ _ H12) as Hcell.
    destruct H12 as (Hm1 & Hl1 & evs1 & Ht1 & HP1).
    destruct H23 as (Hm2 & Hl2 & evs2 & Ht2 & HP2).
    split; [congruence |]. split; [congruence |].
    exists (evs2 ++ evs1). split.
    + rewrite Ht2, Ht1. now rewrite app_assoc.
    + apply Forall_app. split; [now rewrite <- Hcell | exact HP1].
Qed.

Section Combinators.

Variable R : World -> World -> Prop.
Context `{!PreOrder R}.

Lemma preserves_pure {A} (c : M A) :
  (forall w, snd (c w) = w) -> preserves R c.
Proof. intros H w. rewrite H. reflexivity. Qed.

Lemma preserves_ret {A} (a : A) : preserves R (ret a).
Proof. now apply preserves_pure. Qed.

Lemma preserves_throw {A} (e : JS) : preserves R (@throw A e).
Proof. now apply preserves_pure. Qed.

Lemma preserves_bind {A B} (c : M A) (k : A -> M B) :
  preserves R c -> (forall a, preserves R (k a)) -> preserves R (bind c k).
Proof.
  intros Hc Hk w. unfold bind. specialize (Hc w).
  destruct (c w) as [[a | e] w1]; cbn [snd] in *.
  - transitivity w1; [exact Hc | apply Hk].
  - exact Hc.
Qed.

Lemma preserves_try_catch {A} (c : M A) (h : JS -> M A) :
  preserves R c -> (forall e, preserves R (h e)) -> preserves R (try_catch c h).
Proof.
  intros Hc Hh w. unfold try_catch. specialize (Hc w).
  destruct (c w) as [[a | e] w1]; cbn [snd] in *.
  - exact Hc.
  - transitivity w1; [exact Hc | apply Hh].
Qed.

Lemma preserves_try_finally {A} (c : M A) (f : M unit) :
  preserves R c -> preserves R f -> preserves R (try_finally c f).
Proof.
  intros Hc Hf w. unfold try_finally. specialize (Hc w).
  destruct (c w) as [r w1]; cbn [snd] in *. specialize (Hf w1).
  destruct (f w1) as [[[] | e] w2]; cbn [snd] in *;
    (transitivity w1; [exact Hc | exact Hf]).
Qed.

End Combinators.

Lemma footprint_store (f : Store -> Store) : preserves (footprint P) (modify_store f).
Proof.
  intros w. repeat split. exists []. split; [reflexivity | constructor].
Qed.

Lemma footprint_initializedRef (b : bool) :
  preserves (footprint P) (set_initializedRef b).
Proof.
  intros w. repeat split. exists []. split; [reflexivity | constructor].
Qed.

Lemma footprint_getItem (k : string) : preserves (footprint P) (LocalStorage.getItem k).
Proof.
  apply preserves_pure; [typeclasses eauto |].
  intros w. unfold LocalStorage.getItem. now destruct (mode (localStorage w)).
Qed.

Lemma footprint_keys : preserves (footprint P) LocalStorage.keys.
Proof.
  apply preserves_pure; [typeclasses eauto |].
  intros w. unfold LocalStorage.keys. now destruct (mode (localStorage w)).
Qed.

Lemma footprint_setItem (k v : string) :
  k <> SYNC_LOCK_KEY -> preserves (footprint P) (LocalStorage.setItem k v).
Proof.
  intros Hk w. unfold LocalStorage.setItem.
  destruct (mode (localStorage w)) eqn:Hm; cbn [snd]; try reflexivity.
  split; [cbn; congruence |]. split.
  - cbn. now apply lookup_insert_ne.
  - exists []. split; [reflexivity | constructor].
Qed.

Lemma footprint_removeItem (k : string) :
  k <> SYNC_LOCK_KEY -> preserves (footprint P) (LocalStorage.removeItem k).
Proof.
  intros Hk w. unfold LocalStorage.removeItem.
  destruct (mode (localStorage w)) eqn:Hm; cbn [snd]; try reflexivity.
  all: split; [cbn; congruence |]; split;
    [cbn; now apply lookup_delete_ne
    | exists []; split; [reflexivity | constructor]].
Qed.

Lemma footprint_emit (ev : Event) :
  is_upsert ev = false -> preserves (footprint P) (emit ev).
Proof.
  intros Hev w. repeat split. exists [ev]. split; [reflexivity |].
  constructor; [now apply P_other | constructor].
Qed.

Lemma footprint_call {A} (ev : Event) (answer : list Event -> Res A) :
  is_upsert ev = false -> preserves (footprint P) (call ev answer).
Proof.
  intros Hev w. repeat split. exists [ev]. split; [reflexivity |].
  constructor; [now apply P_other | constructor].
Qed.

Lemma footprint_pure {A} (c : M A) :
  (forall w, snd (c w) = w) -> preserves (footprint P) c.
Proof. apply preserves_pure. typeclasses eauto. Qed.

Create HintDb footprint.

Hint Resolve footprint_store footprint_initializedRef footprint_getItem
  footprint_keys footprint_setItem footprint_removeItem footprint_emit
  footprint_call : footprint.
Hint Extern 1 (_ <> SYNC_LOCK_KEY) => discriminate : footprint.
Hint Extern 1 (is_upsert _ = false) => reflexivity : footprint.
Hint Extern 2 (preserves _ _) =>
  (apply footprint_pure; intros ?; reflexivity) : footprint.

Ltac footprint_auto :=
  repeat first
    [ progress cbv zeta
    | apply preserves_ret; typeclasses eauto
    | apply preserves_throw; typeclasses eauto
    | apply preserves_bind; [typeclasses eauto | | intros ?]
    | apply preserves_try_catch; [typeclasses eauto | | intros ?]
    | apply preserves_try_finally; [typeclasses eauto | | ]
    | solve [eauto with footprint]
    | match goal with
      | |- preserves _ (if ?b then _ else _) => destruct b
      | |- preserves _ (match ?x with _ => _ end) => destruct x
      end ].

Lemma footprint_parse (text : string) : preserves (footprint P) (parse env text).
Proof. unfold parse. footprint_auto. Qed.

Lemma footprint_get_field (k : string) (o : JS) :
  preserves (footprint P) (get_field k o).
Proof. unfold get_field. footprint_auto. Qed.

Hint Resolve footprint_parse footprint_get_field : footprint.

Lemma footprint_saveState (doc : JS) : preserves (footprint P) (saveState doc).
Proof. unfold saveState. footprint_auto. Qed.

Lemma footprint_clearState : preserves (footprint P) clearState.
Proof. unfold clearState. footprint_auto. Qed.

Lemma footprint_setPendingSnapshot (doc : JS) :
  preserves (footprint P) (setPendingSnapshot doc).
Proof. unfold setPendingSnapshot. footprint_auto. Qed.

Lemma footprint_getPendingSnapshot :
  preserves (footprint P) (getPendingSnapshot env).
Proof. unfold getPendingSnapshot. footprint_auto. Qed.

Lemma footprint_clearPendingSnapshot : preserves (footprint P) clearPendingSnapshot.
Proof. unfold clearPendingSnapshot. footprint_auto. Qed.

Lemma footprint_mirror_welcomeSeen (v : bool) :
  preserves (footprint P) (mirror_welcomeSeen v).
Proof. unfold mirror_welcomeSeen. footprint_auto. Qed.

Hint Resolve footprint_saveState footprint_clearState
  footprint_setPendingSnapshot footprint_getPendingSnapshot
  footprint_clearPendingSnapshot footprint_mirror_welcomeSeen : footprint.

Lemma footprint_setWelcomeSeen (v : bool) : preserves (footprint P) (setWelcomeSeen v).
Proof. unfold setWelcomeSeen. footprint_auto. Qed.

Lemma footprint_updateLastAuthTimestamp :
  preserves (footprint P) (updateLastAuthTimestamp env).
Proof. unfold updateLastAuthTimestamp. footprint_auto. Qed.

Lemma footprint_replaceAllData (data : JS) :
  preserves (footprint P) (replaceAllData data).
Proof. unfold replaceAllData. footprint_auto. Qed.

Hint Resolve footprint_setWelcomeSeen footprint_updateLastAuthTimestamp
  footprint_replaceAllData : footprint.

Lemma footprint_classify (err : JS) : preserves (footprint P) (classify env err).
Proof. unfold classify. footprint_auto. Qed.

Lemma footprint_some_stored_session (supabaseKeys : list string) :
  preserves (footprint P) (some_stored_session env supabaseKeys).
Proof.
  induction supabaseKeys as [| key rest IH]; cbn [some_stored_session];
    footprint_auto.
Qed.

Lemma footprint_find_current_session (storedKeys : list string) :
  preserves (footprint P) (find_current_session env storedKeys).
Proof.
  induction storedKeys as [| key rest IH]; cbn [find_current_session];
    footprint_auto.
Qed.

Hint Resolve footprint_classify footprint_some_stored_session
  footprint_find_current_session : footprint.




Lemma footprint_wipe_local_data : preserves (footprint P) wipe_local_data.
Proof. unfold wipe_local_data. footprint_auto. Qed.

Lemma footprint_signInAnonymously_ok :
  preserves (footprint P) (signInAnonymously_ok env).
Proof. unfold signInAnonymously_ok. footprint_auto. Qed.

Hint Resolve footprint_wipe_local_data footprint_signInAnonymously_ok : footprint.






(** From here on, upserts: [P] must accept an upsert that records the
    current lock cell. *)
Hypothesis P_upsert : forall cell snapshot, P cell (EvUpsertCloudState snapshot cell).

Lemma footprint_upsertCloudState (snapshot : JS) :
  preserves (footprint P) (upsertCloudState env snapshot).
Proof.
  intros w. repeat split. exists [EvUpsertCloudState snapshot (lock_cell w)].
  split; [reflexivity |]. constructor; [apply P_upsert | constructor].
Qed.

Hint Resolve footprint_upsertCloudState : footprint.

Lemma footprint_pushSnapshot (snapshot : JS) :
  preserves (footprint P) (pushSnapshot env snapshot).
Proof. unfold pushSnapshot, getNetworkStatus, setCloudStatus. footprint_auto. Qed.

Hint Resolve footprint_pushSnapshot : footprint.

Lemma footprint_applyCloud (session cloud : JS) :
  preserves (footprint P) (applyCloud env session cloud).
Proof.
  unfold applyCloud, getSnapshot, setSubscription, setCloudStatus,
    setCloudSyncReady.
  footprint_auto.
Qed.

Hint Resolve footprint_applyCloud : footprint.

Lemma footprint_pullFromCloud (session : JS) :
  preserves (footprint P) (pullFromCloud env session).
Proof. unfold pullFromCloud, getCloudState. footprint_auto. Qed.

Hint Resolve footprint_pullFromCloud : footprint.


Lemma footprint_syncFailed (err : JS) :
  preserves (footprint P) (syncFailed env err).
Proof.
  unfold syncFailed, setCloudStatus, getSnapshot, setCloudSyncReady.
  footprint_auto.
Qed.

End Footprint.

Section Reconciliation.

Variable env : Env.

Lemma upsert_under_other (cell : option string) (ev : Event) :
  is_upsert ev = false -> upsert_under cell ev.
Proof. intros Hev snapshot lock ->. discriminate Hev. Qed.

Lemma upsert_under_upsert (cell : option string) (snapshot : JS) :
  upsert_under cell (EvUpsertCloudState snapshot cell).
Proof. intros snapshot' lock [= _ <-]. reflexivity. Qed.



Lemma syncFailed_footprint (err : JS) :
  preserves (footprint upsert_under) (syncFailed env err).
Proof. apply footprint_syncFailed; auto using upsert_under_other. Qed.

Lemma applyCloud_footprint (session cloud : JS) :
  preserves (footprint upsert_under) (applyCloud env session cloud).
Proof.
  apply footprint_applyCloud; auto using upsert_under_other, upsert_under_upsert.
Qed.

Lemma try_finally_release {A} (c : M A) (w : World) :
  try_finally c releaseSyncLock w
  = (fst (c w), on_storage (try_remove SYNC_LOCK_KEY) (snd (c w))).
Proof.
  unfold try_finally. destruct (c w) as [r w1].
  now rewrite releaseSyncLock_run.
Qed.


Lemma syncLocked_pending_run (session : JS) (w : World) :
  Js.truthy (pending_in env (localStorage w)) = true ->
  syncLocked env session w
  = (Return tt,
     on_storage (try_remove SYNC_LOCK_KEY)
       (with_initializedRef true
          (snd (pushSnapshot env (pending_in env (localStorage w))
                  (on_store (with_cloudStatus Syncing) w))))).
Proof.
  intros Hpending. unfold syncLocked. rewrite try_finally_release.
  unfold try_catch, syncBody, bind, setCloudStatus.
  rewrite modify_store_run, getPendingSnapshot_run.
  cbn [localStorage on_store]. rewrite Hpending.
  rewrite pushSnapshot_run. reflexivity.
Qed.

Lemma pushSnapshot_trace (snapshot : JS) (w : World) :
  exists events,
    trace (snd (pushSnapshot env snapshot w)) = events ++ trace w
    /\ ~ In EvGetCloudState events.
Proof.
  rewrite pushSnapshot_run. cbn [snd].
  destruct (network_status env (trace w)).
  - exists [EvUpsertCloudState snapshot (lock_cell w); EvGetNetworkStatus].
    split.
    + destruct (cloud_upsert env (EvGetNetworkStatus :: trace w) snapshot);
        reflexivity.
    + intros [H | [H | []]]; discriminate H.
  - exists [EvGetNetworkStatus]. split; [reflexivity |].
    intros [H | []]; discriminate H.
Qed.

Lemma pullFromCloud_trace (session : JS) (w : World) :
  exists events,
    trace (snd (pullFromCloud env session w)) = events ++ EvGetCloudState :: trace w.
Proof.
  unfold pullFromCloud, bind, getCloudState. rewrite call_run.
  destruct (cloud_get env (trace w)) as [cloud | err].
  - destruct (applyCloud_footprint session cloud (logged [EvGetCloudState] w))
      as (_ & _ & events & -> & _).
    now exists events.
  - now exists [].
Qed.

(** When nothing is pending the first thing the protected section does is
    the pull. *)
Lemma syncLocked_pull_trace (session : JS) (w : World) :
  Js.truthy (pending_in env (localStorage w)) = false ->
  exists events,
    trace (snd (syncLocked env session w)) = events ++ EvGetCloudState :: trace w.
Proof.
  intros Hpending. unfold syncLocked. rewrite try_finally_release.
  cbn [snd trace on_storage].
  assert (Hbody : syncBody env session w
                  = pullFromCloud env session (on_store (with_cloudStatus Syncing) w)).
  { unfold syncBody, bind, setCloudStatus.
    rewrite modify_store_run, getPendingSnapshot_run.
    cbn [localStorage on_store]. now rewrite Hpending. }
  unfold try_catch. rewrite Hbody.
  destruct (pullFromCloud_trace session (on_store (with_cloudStatus Syncing) w))
    as (events & Hpull).
  destruct (pullFromCloud env session (on_store (with_cloudStatus Syncing) w))
    as [[[] | err] w1]; cbn [snd] in *.
  - now exists events.
  - destruct (syncFailed_footprint err w1) as (_ & _ & events' & -> & _).
    rewrite Hpull. exists (events' ++ events). now rewrite <- app_assoc.
Qed.

(** C7. In the section protected by the lock, a Pending Change is pushed
    first and the section ends there: the remote snapshot is pulled exactly
    when the buffer holds no Pending Change. *)
Theorem syncLocked_pending_before_pull (session : JS) (w : World) :
  let pending := pending_in env (localStorage w) in
  (Js.truthy pending = true ->
     syncLocked env session w
     = (Return tt,
        on_storage (try_remove SYNC_LOCK_KEY)
          (with_initializedRef true
             (snd (pushSnapshot env pending (on_store (with_cloudStatus Syncing) w))))))
  /\ (forall events,
        trace (snd (syncLocked env session w)) = events ++ trace w ->
        (In EvGetCloudState events <-> Js.truthy pending = false)).
Proof.
  intros pending. split; [apply syncLocked_pending_run |].
  intros events Htrace. split.
  - intros Hpull. destruct (Js.truthy pending) eqn:Hpending; [| reflexivity].
    exfalso. rewrite (syncLocked_pending_run session w Hpending) in Htrace.
    cbn [snd trace on_storage with_initializedRef] in Htrace.
    destruct (pushSnapshot_trace (pending_in env (localStorage w))
                (on_store (with_cloudStatus Syncing) w)) as (events' & Hpush & Hno).
    rewrite Hpush in Htrace. cbn [trace on_store] in Htrace.
    apply app_inv_tail in Htrace. subst events'. contradiction.
  - intros Hpending.
    destruct (syncLocked_pull_trace session w Hpending) as (events' & Hpull).
    rewrite Hpull in Htrace.
    change (events' ++ EvGetCloudState :: trace w)
      with (events' ++ [EvGetCloudState] ++ trace w) in Htrace.
    rewrite app_assoc in Htrace. apply app_inv_tail in Htrace. subst events.
    apply in_or_app. right. now left.
Qed.











End Reconciliation.

Section OfflineInitialization.

Variable env : Env.









Lemma truthy_not_nullish (v : JS) : Js.truthy v = true -> Js.nullish v = false.
Proof. destruct v; cbn; congruence. Qed.


End OfflineInitialization.

(** * Scenarios *)

Section Scenarios.

(** Scenario C of the specification: an upsert answered with HTTP 503
    leaves status [Offline]; a rejected row leaves status [Error]. *)
Example classify_examples :
  isNetworkOrServerError true http_503 = true
  /\ isNetworkOrServerError true row_level_security_violation = false
  /\ isNetworkOrServerError false row_level_security_violation = true
  /\ isNetworkOrServerError true (JStr "TypeError: Failed to fetch") = true
  /\ isNetworkOrServerError true (JObj [("statusCode", JNum 599)]) = true
  /\ isNetworkOrServerError true (JObj [("status", JStr "503")]) = false
  /\ isNetworkOrServerError true (JObj [("status", JNum 600)]) = false.
Proof. repeat split. Qed.


(** C5 does not hold as stated: with the storage quota exhausted the
    acquisition succeeds although no lock record is written. *)
Lemma acquireSyncLock_quota_counterexample :
  fst (acquireSyncLock online_env (scenario_world QuotaExceeded [] true))
  = Return true
  /\ items (localStorage
              (snd (acquireSyncLock online_env
                      (scenario_world QuotaExceeded [] true))))
     !! SYNC_LOCK_KEY = None.
Proof. split; reflexivity. Qed.

Lemma acquireSyncLock_spec_witness :
  acquireSyncLock online_env (locked_world 1699999999000)
  = (Return false, locked_world 1699999999000)
  /\ fst (acquireSyncLock online_env (locked_world 1699999995000)) = Return true
  /\ items (localStorage
              (snd (acquireSyncLock online_env (locked_world 1699999995000))))
     !! SYNC_LOCK_KEY = Some "1700000000000"
  /\ acquireSyncLock online_env (scenario_world Denied [] true)
     = (Return true, scenario_world Denied [] true).
Proof.
  pose proof (acquireSyncLock_spec online_env (locked_world 1699999999000))
    as (Hheld & _).
  pose proof (acquireSyncLock_spec online_env (locked_world 1699999995000))
    as (Hexpired & _).
  pose proof (acquireSyncLock_spec online_env (scenario_world Denied [] true))
    as (_ & Hdenied & _).
  split; [| split; [| split]].
  - apply Hheld; [reflexivity |].
    exists "1699999999000", 1699999999000. repeat split.
  - rewrite (proj2 (Hexpired eq_refl)); [reflexivity |].
    intros (text & ts & Hget & Hparse & Hage).
    vm_compute in Hget. injection Hget as <-.
    vm_compute in Hparse. injection Hparse as <-. cbn in Hage. lia.
  - rewrite (proj2 (Hexpired eq_refl)); [vm_compute; reflexivity |].
    intros (text & ts & Hget & Hparse & Hage).
    vm_compute in Hget. injection Hget as <-.
    vm_compute in Hparse. injection Hparse as <-. cbn in Hage. lia.
  - apply Hdenied. reflexivity.
Defined.

(** C9 does not hold as stated: a record whose schema version is 2, not
    the supported 1, is returned by [loadState]. *)
Lemma loadState_version_2_counterexample :
  loadState online_env version_2_world = (Return version_2_record, version_2_world)
  /\ Js.field "schemaVersion" version_2_record = JNum 2.
Proof. split; reflexivity. Qed.

Lemma loadState_spec_witness :
  loadState online_env version_2_world = (Return version_2_record, version_2_world)
  /\ loadState online_env (scenario_world Working [] false)
     = (Return JNull, scenario_world Working [] false).
Proof.
  split.
  - destruct (loadState_spec online_env version_2_world) as (v & Hrun & _ & Huniq).
    rewrite Hrun. f_equal. f_equal. apply Huniq.
    exists (stored_text version_2_record). repeat split.
  - destruct (loadState_spec online_env (scenario_world Working [] false))
      as (v & Hrun & [-> | (text & Hread & _)] & _).
    + exact Hrun.
    + discriminate Hread.
Defined.










Lemma syncLocked_pending_before_pull_witness :
  trace (snd (syncLocked online_env sample_session locked_pending_world))
  = [EvUpsertCloudState sample_snapshot (Some "1700000000000"); EvGetNetworkStatus]
  /\ ~ In EvGetCloudState
       [EvUpsertCloudState sample_snapshot (Some "1700000000000");
        EvGetNetworkStatus]
  /\ In EvGetCloudState
       (trace (snd (syncLocked online_env sample_session
                      (locked_world 1700000000000)))).
Proof.
  pose proof (syncLocked_pending_before_pull online_env sample_session
                locked_pending_world) as (Hpush & Hiff).
  pose proof (syncLocked_pending_before_pull online_env sample_session
                (locked_world 1700000000000)) as (_ & Hpull).
  cbv zeta in *.
  split; [| split].
  - rewrite (Hpush eq_refl). reflexivity.
  - intros Hin.
    apply (Hiff [EvUpsertCloudState sample_snapshot (Some "1700000000000");
                 EvGetNetworkStatus]) in Hin; [discriminate Hin |].
    rewrite (Hpush eq_refl). reflexivity.
  - specialize (Hpull (trace (snd (syncLocked online_env sample_session
                                      (locked_world 1700000000000))))).
    apply Hpull; [| reflexivity].
    now rewrite app_nil_r.
Defined.

End Scenarios.

(** * Further properties *)

Section Decimal.

Lemma digit_of_pretty_N_char (d : N) :
  (d < 10)%N -> Js.digit_of (pretty_N_char d) = Some (Z.of_N d).
Proof.
  intros Hd.
  assert (Hcases : In d [0; 1; 2; 3; 4; 5; 6; 7; 8; 9]%N).
  { cbn. lia. }
  cbn in Hcases.
  repeat (destruct Hcases as [<- | Hcases]; [reflexivity |]). contradiction.
Qed.

(** Reading the digits that [pretty_N_go] writes in front of [s]. *)
Lemma read_digits_pretty_N_go (x : N) :
  (0 < x)%N ->
  exists k : Z,
    0 <= k
    /\ forall acc s,
         Js.read_digits acc (pretty_N_go x s)
         = Js.read_digits (Some (default 0 acc * 10 ^ k + Z.of_N x)) s.
Proof.
  induction x as [x IH] using (well_founded_induction N.lt_wf_0).
  intros Hx.
  assert (Hmod : (x mod 10 < 10)%N) by (apply N.mod_lt; lia).
  destruct (decide (x / 10 = 0)%N) as [Hsmall | Hbig].
  - exists 1. split; [lia |]. intros acc s.
    rewrite pretty_N_go_step by exact Hx. rewrite Hsmall, pretty_N_go_0.
    cbn [Js.read_digits]. rewrite digit_of_pretty_N_char by exact Hmod.
    f_equal. f_equal.
    pose proof (N.div_mod x 10 ltac:(lia)) as Hdm. rewrite Hsmall in Hdm.
    rewrite N.mul_0_r, N.add_0_l in Hdm.
    rewrite Z.pow_1_r. rewrite <- Hdm.
    generalize (default 0 acc) (Z.of_N x). intros a b. ring.
  - destruct (IH (x / 10)%N) as (k & Hk & Hread).
    { apply N.div_lt; lia. }
    { now apply N.neq_0_lt_0. }
    exists (k + 1). split; [lia |]. intros acc s.
    rewrite pretty_N_go_step by exact Hx. rewrite Hread.
    cbn [Js.read_digits]. rewrite digit_of_pretty_N_char by exact Hmod.
    f_equal. f_equal. cbn [default].
    pose proof (N.div_mod x 10 ltac:(lia)) as Hdm.
    apply (f_equal Z.of_N) in Hdm.
    rewrite N2Z.inj_add, N2Z.inj_mul in Hdm. change (Z.of_N 10) with 10 in Hdm.
    rewrite Z.pow_add_r, Z.pow_1_r by lia.
    set (q := Z.of_N (x / 10)) in *. set (r := Z.of_N (x mod 10)) in *.
    rewrite Hdm. clearbody q r. unfold id.
    generalize (default 0 acc) (10 ^ k). intros a b. ring.
Qed.

Lemma pretty_N_go_head (x : N) (s : string) :
  (0 < x)%N ->
  exists d rest, (d < 10)%N /\ pretty_N_go x s = String (pretty_N_char d) rest.
Proof.
  revert s. induction x as [x IH] using (well_founded_induction N.lt_wf_0).
  intros s Hx. rewrite pretty_N_go_step by exact Hx.
  destruct (decide (x / 10 = 0)%N) as [Hsmall | Hbig].
  - rewrite Hsmall, pretty_N_go_0. exists (x mod 10)%N, s.
    split; [apply N.mod_lt; lia | reflexivity].
  - apply IH; [apply N.div_lt; lia | now apply N.neq_0_lt_0].
Qed.

Lemma parseInt_digits (d : N) (rest : string) :
  (d < 10)%N ->
  Js.parseInt (String (pretty_N_char d) rest)
  = Js.read_digits None (String (pretty_N_char d) rest).
Proof.
  intros Hd.
  assert (Hcases : In d [0; 1; 2; 3; 4; 5; 6; 7; 8; 9]%N).
  { cbn. lia. }
  cbn in Hcases.
  repeat (destruct Hcases as [<- | Hcases]; [reflexivity |]). contradiction.
Qed.

(** [parseInt(String(n), 10) === n] for every integer. *)
Lemma parseInt_pretty (n : Z) : Js.parseInt (pretty n) = Some n.
Proof.
  destruct n as [| p | p]; [reflexivity | |].
  - change (pretty (Z.pos p)) with (pretty_N_go (N.pos p) EmptyString).
    destruct (pretty_N_go_head (N.pos p) EmptyString ltac:(lia))
      as (d & rest & Hd & Hhead).
    destruct (read_digits_pretty_N_go (N.pos p) ltac:(lia)) as (k & _ & Hread).
    specialize (Hread None EmptyString).
    rewrite Hhead in *. rewrite parseInt_digits by exact Hd. rewrite Hread.
    cbn. reflexivity.
  - change (pretty (Z.neg p))
      with (String "-" (pretty_N_go (N.pos p) EmptyString)).
    destruct (read_digits_pretty_N_go (N.pos p) ltac:(lia)) as (k & _ & Hread).
    unfold Js.parseInt. cbn [Js.skip_spaces Js.is_space].
    change (Js.is_space "-") with false. cbv iota.
    rewrite (Hread None EmptyString). cbn. reflexivity.
Qed.

Lemma pretty_nonempty (n : Z) : pretty n <> EmptyString.
Proof.
  intros H. pose proof (parseInt_pretty n) as Hp. rewrite H in Hp. discriminate.
Qed.

End Decimal.

Section Buffers.

Variable env : Env.

Lemma stored_text_nonempty (doc : JS) : stored_text doc <> EmptyString.
Proof.
  unfold stored_text, Js.JSON_stringify.
  destruct doc as [| | [] | n | s | l | fs]; cbn; try discriminate.
  apply pretty_nonempty.
Qed.

Lemma readable_text_try_set (k v : string) (st : Storage) :
  mode st = Working -> v <> EmptyString ->
  readable_text k (try_set k v st) = Some v.
Proof.
  intros Hmode Hv. unfold readable_text.
  rewrite try_set_mode, Hmode, (try_set_lookup k v st Hmode).
  destruct (String.eqb_spec v EmptyString); [contradiction | reflexivity].
Qed.

Lemma readable_text_try_remove (k : string) (st : Storage) :
  readable_text k (try_remove k st) = None.
Proof.
  unfold readable_text. rewrite try_remove_mode.
  destruct (mode st) eqn:Hmode; try reflexivity;
    rewrite try_remove_lookup by (rewrite Hmode; discriminate); reflexivity.
Qed.

Lemma readable_text_try_set_ne (k k' v : string) (st : Storage) :
  k <> k' -> readable_text k' (try_set k v st) = readable_text k' st.
Proof.
  intros Hk. unfold readable_text.
  now rewrite try_set_mode, try_set_lookup_ne.
Qed.

Lemma readable_text_try_remove_ne (k k' : string) (st : Storage) :
  k <> k' -> readable_text k' (try_remove k st) = readable_text k' st.
Proof.
  intros Hk. unfold readable_text.
  now rewrite try_remove_mode, try_remove_lookup_ne.
Qed.

Lemma try_set_try_set (k v v' : string) (st : Storage) :
  try_set k v' (try_set k v st) = try_set k v' st.
Proof.
  unfold try_set. destruct (mode st) eqn:Hmode; cbn; rewrite ?Hmode; try reflexivity.
  now rewrite insert_insert_eq.
Qed.

(** X1. The Pending-Change Buffer holds one snapshot: a second
    [setPendingSnapshot] overwrites the first, in every storage mode, and
    neither call throws. *)
Theorem setPendingSnapshot_overwrites (first second : JS) (w : World) :
  fst (setPendingSnapshot first w) = Return tt
  /\ bind (setPendingSnapshot first) (fun _ => setPendingSnapshot second) w
     = setPendingSnapshot second w.
Proof.
  unfold bind. rewrite !setPendingSnapshot_run. split; [reflexivity |].
  unfold on_storage. cbn [localStorage store initializedRef trace].
  now rewrite try_set_try_set.
Qed.

(** X2. On a working storage, what [getPendingSnapshot] reads after
    [setPendingSnapshot doc] is what [JSON.parse] makes of
    [JSON.stringify doc], and [hasPendingSnapshot] is its truthiness. *)
Theorem pending_round_trip (doc parsed : JS) (w : World) :
  mode (localStorage w) = Working ->
  JSON_parse env (stored_text doc) = Some parsed ->
  let w' := snd (setPendingSnapshot doc w) in
  getPendingSnapshot env w' = (Return parsed, w')
  /\ hasPendingSnapshot env w' = (Return (Js.truthy parsed), w').
Proof.
  intros Hmode Hparse w'. unfold hasPendingSnapshot, bind.
  rewrite getPendingSnapshot_run.
  assert (Hpending : pending_in env (localStorage w') = parsed).
  { unfold w'. rewrite setPendingSnapshot_run. cbn [snd localStorage on_storage].
    unfold pending_in.
    rewrite readable_text_try_set by (auto using stored_text_nonempty).
    now rewrite Hparse. }
  rewrite Hpending. split; reflexivity.
Qed.

(** X3. [clearPendingSnapshot] never throws; afterwards the buffer reads
    as absent whatever it held (also when the storage is denied, since then
    nothing can be read), and the durable state record is untouched. *)
Theorem clearPendingSnapshot_empties (w : World) :
  let w' := snd (clearPendingSnapshot w) in
  fst (clearPendingSnapshot w) = Return tt
  /\ getPendingSnapshot env w' = (Return JNull, w')
  /\ hasPendingSnapshot env w' = (Return false, w')
  /\ loadState env w' = (fst (loadState env w), w').
Proof.
  intros w'. unfold hasPendingSnapshot, bind.
  rewrite getPendingSnapshot_run, !loadState_run.
  unfold w'. rewrite clearPendingSnapshot_run. cbn [fst snd localStorage on_storage].
  unfold pending_in. rewrite readable_text_try_remove.
  rewrite readable_text_try_remove_ne by discriminate.
  repeat split.
Qed.

(** X4. On a working storage, [loadState] after [saveState doc] returns
    what [JSON.parse] makes of [JSON.stringify doc] when that value carries
    a truthy [schemaVersion], and absent otherwise; after [clearState] it
    returns absent. *)
Theorem durable_store_round_trip (doc parsed : JS) (w : World) :
  mode (localStorage w) = Working ->
  JSON_parse env (stored_text doc) = Some parsed ->
  loadState env (snd (saveState doc w))
  = (Return (if Js.truthy (Js.field "schemaVersion" parsed) then parsed else JNull),
     snd (saveState doc w))
  /\ loadState env (snd (clearState (snd (saveState doc w))))
     = (Return JNull, snd (clearState (snd (saveState doc w)))).
Proof.
  intros Hmode Hparse. rewrite !loadState_run, clearState_run, saveState_run.
  cbn [snd localStorage on_storage].
  rewrite readable_text_try_remove.
  rewrite readable_text_try_set by (auto using stored_text_nonempty).
  rewrite Hparse. split; reflexivity.
Qed.

(** X5. The durable state record and the Pending-Change Buffer live under
    different keys: saving or clearing the state never changes what the
    buffer reads, and buffering never changes what [loadState] returns. *)
Theorem state_and_buffer_independent (doc : JS) (w : World) :
  pending_in env (localStorage (snd (saveState doc w)))
  = pending_in env (localStorage w)
  /\ pending_in env (localStorage (snd (clearState w)))
     = pending_in env (localStorage w)
  /\ fst (loadState env (snd (setPendingSnapshot doc w))) = fst (loadState env w).
Proof.
  rewrite !loadState_run, saveState_run, clearState_run, setPendingSnapshot_run.
  cbn [fst snd localStorage on_storage]. unfold pending_in.
  rewrite !readable_text_try_set_ne by discriminate.
  rewrite readable_text_try_remove_ne by discriminate.
  repeat split.
Qed.

End Buffers.

Section LockLifecycle.

Variables env env' : Env.

Lemma acquired_world (w : World) :
  mode (localStorage w) = Working ->
  fst (acquireSyncLock env w) = Return true ->
  items (localStorage (snd (acquireSyncLock env w))) !! SYNC_LOCK_KEY
  = Some (pretty (Date_now env (trace w)))
  /\ mode (localStorage (snd (acquireSyncLock env w))) = Working.
Proof.
  intros Hmode. rewrite acquireSyncLock_run. cbv zeta. rewrite Hmode.
  assert (Hset : items (localStorage
                          (on_storage
                             (try_set SYNC_LOCK_KEY (pretty (Date_now env (trace w))))
                             w)) !! SYNC_LOCK_KEY
                 = Some (pretty (Date_now env (trace w)))
                 /\ mode (localStorage
                            (on_storage
                               (try_set SYNC_LOCK_KEY
                                  (pretty (Date_now env (trace w)))) w))
                    = Working).
  { cbn [localStorage on_storage]. rewrite try_set_mode.
    split; [now apply try_set_lookup | exact Hmode]. }
  destruct (items (localStorage w) !! SYNC_LOCK_KEY) as [text |];
    [destruct (str_truthy (Some text) && lock_is_fresh _ text) |];
    cbn [fst snd]; intros H; try discriminate H; exact Hset.
Qed.

(** X6. Mutual exclusion across contexts.  Once a context has acquired the
    lock on a working storage at time [t], any context sharing that
    localStorage that tries at a time [t'] with [t' - t < 5000] is refused
    and writes nothing; from [t' - t >= 5000] on it acquires the lock and
    replaces the record by its own timestamp. *)
Theorem lock_excludes_other_contexts (w other : World) :
  mode (localStorage w) = Working ->
  fst (acquireSyncLock env w) = Return true ->
  localStorage other = localStorage (snd (acquireSyncLock env w)) ->
  let t := Date_now env (trace w) in
  let t' := Date_now env' (trace other) in
  (t' - t < 5000 -> acquireSyncLock env' other = (Return false, other))
  /\ (5000 <= t' - t ->
      acquireSyncLock env' other
      = (Return true, on_storage (try_set SYNC_LOCK_KEY (pretty t')) other)
      /\ items (localStorage (snd (acquireSyncLock env' other))) !! SYNC_LOCK_KEY
         = Some (pretty t')).
Proof.
  intros Hmode Hacq Hshared t t'.
  destruct (acquired_world w Hmode Hacq) as (Hcell & Hmode').
  rewrite <- Hshared in Hcell, Hmode'.
  rewrite (acquireSyncLock_run env' other). cbv zeta. rewrite Hmode', Hcell.
  fold t t'. unfold lock_is_fresh. rewrite parseInt_pretty.
  assert (Htruthy : str_truthy (Some (pretty t)) = true).
  { cbn. destruct (String.eqb_spec (pretty t) EmptyString) as [H |]; [| reflexivity].
    now apply pretty_nonempty in H. }
  rewrite Htruthy. cbn [andb]. unfold SYNC_LOCK_TIMEOUT. split.
  - intros Hage. destruct (Z.ltb_spec (t' - t) 5000); [reflexivity | lia].
  - intros Hage. destruct (Z.ltb_spec (t' - t) 5000); [lia |].
    split; [reflexivity |]. cbn [snd localStorage on_storage].
    now apply try_set_lookup.
Qed.

(** X7. [releaseSyncLock] never throws; on a readable storage it empties
    the lock cell whoever wrote it, so that the next contender acquires the
    lock at once, whatever the time; releasing twice is releasing once. *)
Theorem release_frees_the_lock (w other : World) :
  mode (localStorage w) <> Denied ->
  localStorage other = localStorage (snd (releaseSyncLock w)) ->
  fst (releaseSyncLock w) = Return tt
  /\ items (localStorage (snd (releaseSyncLock w))) !! SYNC_LOCK_KEY = None
  /\ fst (acquireSyncLock env' other) = Return true
  /\ bind releaseSyncLock (fun _ => releaseSyncLock) w = releaseSyncLock w.
Proof.
  intros Hmode Hshared. unfold bind. rewrite !releaseSyncLock_run.
  rewrite releaseSyncLock_run in Hshared. cbn [fst snd localStorage on_storage] in *.
  assert (Hcell : items (try_remove SYNC_LOCK_KEY (localStorage w)) !! SYNC_LOCK_KEY
                  = None) by now apply try_remove_lookup.
  repeat split.
  - exact Hcell.
  - rewrite acquireSyncLock_run. cbv zeta. rewrite Hshared, Hcell.
    destruct (mode (try_remove SYNC_LOCK_KEY (localStorage w))); reflexivity.
  - unfold on_storage. cbn [localStorage store initializedRef trace].
    f_equal. f_equal. unfold try_remove.
    destruct (mode (localStorage w)) eqn:Hm; cbn; rewrite ?Hm;
      try reflexivity; now rewrite delete_delete_eq.
Qed.

End LockLifecycle.

Section StoreOperations.

Variable env : Env.

Lemma toggleBiometricAuth_store (w : World) :
  toggleBiometricAuth w
  = (Return tt,
     on_store
       (with_security
          (JObj [("biometricEnabled", JBool (negb (biometric_on (store w))));
                 ("lastAuthTimestamp",
                  Js.opt_field "lastAuthTimestamp" (security (store w)))]))
       (on_storage
          (try_set STORAGE_KEY
             (stored_text
                (store_json
                   (with_security
                      (JObj [("biometricEnabled",
                              JBool (negb (biometric_on (store w))));
                             ("lastAuthTimestamp",
                              Js.opt_field "lastAuthTimestamp" (security (store w)))])
                      (store w)))))
          w)).
Proof.
  unfold toggleBiometricAuth, bind, get_store.
  rewrite saveState_run, modify_store_run. reflexivity.
Qed.

(** X8. [toggleBiometricAuth] flips the biometric flag (a missing flag or
    a missing [security] counts as off) and keeps the last authentication
    timestamp; toggling twice gives back the flag as a boolean and leaves
    every other field of the store as the first toggle left it. *)
Theorem toggleBiometricAuth_twice (w : World) :
  let once := store (snd (toggleBiometricAuth w)) in
  let twice := store (snd (toggleBiometricAuth (snd (toggleBiometricAuth w)))) in
  biometric_on once = negb (biometric_on (store w))
  /\ security twice
     = JObj [("biometricEnabled", JBool (biometric_on (store w)));
             ("lastAuthTimestamp",
              Js.opt_field "lastAuthTimestamp" (security (store w)))]
  /\ twice = with_security (security twice) once
  /\ snapshot_of twice
     = JObj [("schemaVersion", JNum 1);
             ("welcomeSeen", welcomeSeen (store w));
             ("security", security twice)].
Proof.
  cbv zeta. rewrite !toggleBiometricAuth_store.
  cbn [snd store on_store on_storage].
  unfold biometric_on, with_security. cbn.
  rewrite negb_involutive. repeat split.
Qed.

(** X9. The two security actions do not disturb each other:
    [updateLastAuthTimestamp] stamps the current time and keeps the
    biometric flag, and a later [toggleBiometricAuth] keeps that stamp. *)
Theorem security_actions_compose (w : World) :
  let stamped := snd (updateLastAuthTimestamp env w) in
  let toggled := snd (toggleBiometricAuth stamped) in
  fst (updateLastAuthTimestamp env w) = Return tt
  /\ biometric_on (store stamped) = biometric_on (store w)
  /\ Js.field "lastAuthTimestamp" (security (store stamped))
     = JNum (Date_now env (trace w))
  /\ biometric_on (store toggled) = negb (biometric_on (store w))
  /\ Js.field "lastAuthTimestamp" (security (store toggled))
     = JNum (Date_now env (trace w)).
Proof.
  cbv zeta. rewrite toggleBiometricAuth_store.
  unfold updateLastAuthTimestamp, bind, get_store, now.
  rewrite saveState_run, modify_store_run.
  cbn [fst snd store on_store on_storage trace].
  unfold biometric_on, with_security. cbn.
  destruct (Js.opt_field "biometricEnabled" (security (store w))); cbn;
    repeat split.
Qed.

(** X10. After [replaceAllData data] the snapshot read by [getSnapshot] is
    [data]'s [welcomeSeen] and [security] with their defaults, under schema
    version 1; installing that snapshot again changes nothing in the
    store. *)
Theorem replaceAllData_getSnapshot (data : JS) (w : World) :
  Js.nullish data = false ->
  let w1 := snd (replaceAllData data w) in
  let installed :=
    JObj [("schemaVersion", JNum 1);
          ("welcomeSeen", Js.coalesce (Js.field "welcomeSeen" data) (JBool false));
          ("security", Js.coalesce (Js.field "security" data) defaultSecurity)] in
  getSnapshot w1 = (Return installed, w1)
  /\ store (snd (replaceAllData installed w1)) = store w1.
Proof.
  intros Hdata w1 installed.
  assert (Hw1 : store w1
                = with_data (Js.coalesce (Js.field "welcomeSeen" data) (JBool false))
                    (Js.coalesce (Js.field "security" data) defaultSecurity)
                    (store w)).
  { unfold w1. now rewrite replaceAllData_run. }
  split.
  - rewrite getSnapshot_run. unfold snapshot_of. rewrite Hw1. reflexivity.
  - rewrite replaceAllData_run by reflexivity.
    cbn [snd store on_store on_storage]. rewrite Hw1.
    unfold installed. cbn [Js.field Js.lookup_field String.eqb Ascii.eqb Bool.eqb].
    assert (Hidem : forall a b, Js.coalesce (Js.coalesce a b) b = Js.coalesce a b).
    { intros a b. unfold Js.coalesce. destruct (Js.nullish a) eqn:Ha.
      - destruct (Js.nullish b); reflexivity.
      - now rewrite Ha. }
    cbn. rewrite !Hidem. reflexivity.
Qed.

Lemma create_run (currentMonthKey : string) (w : World) :
  exists loaded,
    loadState env w = (Return loaded, w)
    /\ create env currentMonthKey w
       = (Return
            (let hydrated := Js.coalesce loaded defaultState in
             mkStore (Js.field "schemaVersion" hydrated)
               (Js.field "security" hydrated)
               (Js.field "cloudSyncReady" hydrated)
               (List.filter
                  (fun kv => negb (existsb (String.eqb (fst kv)) declared_keys))
                  (Js.spread hydrated))
               JNull false Guest Idle
               (JBool (bool_decide (readable_text SEEN_KEY (localStorage w) = Some "1")))
               currentMonthKey no_user),
          w).
Proof.
  eexists. split; [apply loadState_run |].
  unfold create. rewrite (bind_Return _ _ _ _ _ (loadState_run env w)).
  cbv zeta. unfold bind, try_catch, LocalStorage.getItem, readable_text, ret.
  destruct (mode (localStorage w)); cbv beta iota; try reflexivity.
  all: destruct (items (localStorage w) !! SEEN_KEY) as [text |]; [| reflexivity];
    destruct (String.eqb_spec text EmptyString) as [-> | Hne]; [reflexivity |];
    repeat f_equal.
Qed.

(** X11. The welcome flag survives a restart: on a working storage the
    store created after [setWelcomeSeen v] starts with [welcomeSeen = v]. *)
Theorem welcomeSeen_survives_restart (v : bool) (currentMonthKey : string)
    (w : World) :
  mode (localStorage w) = Working ->
  exists s,
    create env currentMonthKey (snd (setWelcomeSeen v w))
    = (Return s, snd (setWelcomeSeen v w))
    /\ welcomeSeen s = JBool v.
Proof.
  intros Hmode.
  destruct (create_run currentMonthKey (snd (setWelcomeSeen v w)))
    as (loaded & _ & ->).
  eexists. split; [reflexivity |]. cbv zeta. cbn [welcomeSeen]. f_equal.
  rewrite setWelcomeSeen_run. cbn [snd localStorage on_storage on_store].
  rewrite readable_text_try_set_ne by discriminate.
  destruct v.
  - rewrite readable_text_try_set by (exact Hmode || discriminate).
    reflexivity.
  - rewrite readable_text_try_remove. reflexivity.
Qed.

(** X12. [create] never throws and changes nothing, and whatever record
    was persisted the store starts as a guest: mode guest, status idle, no
    user, no subscription, session not expired; a persisted value for one
    of those fields is ignored.  When no record is accepted by [loadState]
    (nothing stored, storage denied, unparsable or without schema version),
    the document starts from the default state: schema version 1,
    biometric off. *)
Theorem create_defaults (currentMonthKey : string) (w : World) :
  (exists s,
     create env currentMonthKey w = (Return s, w)
     /\ cloudMode s = Guest
     /\ cloudStatus s = Idle
     /\ user s = no_user
     /\ subscription s = JNull
     /\ sessionExpired s = false
     /\ selectedMonth s = currentMonthKey
     /\ Forall (fun kv => ~ In (fst kv) declared_keys) (extra s))
  /\ (fst (loadState env w) = Return JNull ->
      create env currentMonthKey w
      = (Return
           (mkStore (JNum 1) defaultSecurity JUndef [] JNull false Guest Idle
              (JBool (bool_decide (readable_text SEEN_KEY (localStorage w) = Some "1")))
              currentMonthKey no_user),
         w)).
Proof.
  destruct (create_run currentMonthKey w) as (loaded & Hrun & Hcreate).
  split.
  - eexists. split; [exact Hcreate |]. cbv zeta.
    cbn [cloudMode cloudStatus user subscription sessionExpired selectedMonth extra].
    repeat (split; [reflexivity |]).
    apply List.Forall_forall. intros kv Hin.
    apply filter_In in Hin as (_ & Hkeep). intros Hdeclared.
    apply negb_true_iff in Hkeep.
    assert (Hex : existsb (String.eqb (fst kv)) declared_keys = true).
    { apply existsb_exists. exists (fst kv). split; [exact Hdeclared |].
      apply String.eqb_refl. }
    congruence.
  - intros Hload. rewrite Hcreate.
    rewrite Hrun in Hload. cbn in Hload. injection Hload as ->. reflexivity.
Qed.

End StoreOperations.

Section ClassifierMessages.

Lemma toLowerCase_app (a b : string) :
  Js.toLowerCase (a +:+ b) = Js.toLowerCase a +:+ Js.toLowerCase b.
Proof.
  induction a as [| c a IH]; [reflexivity |].
  change (Js.toLowerCase (String c (a +:+ b))
          = String (Js.lower_ascii c) (Js.toLowerCase a +:+ Js.toLowerCase b)).
  cbn [Js.toLowerCase]. now rewrite IH.
Qed.

Lemma prefix_app (needle rest : string) : String.prefix needle (needle +:+ rest) = true.
Proof.
  induction needle as [| c needle IH]; [now destruct rest |].
  change (String.prefix (String c needle) (String c (needle +:+ rest)) = true).
  cbn [String.prefix].
  destruct (Ascii.ascii_dec c c); [exact IH | contradiction].
Qed.

Lemma includes_app (needle before after : string) :
  Js.includes needle (before +:+ needle +:+ after) = true.
Proof.
  induction before as [| c before IH].
  - change (Js.includes needle (needle +:+ after) = true).
    pose proof (prefix_app needle after) as Hprefix.
    destruct (needle +:+ after); cbn [Js.includes]; now rewrite Hprefix.
  - change (Js.includes needle (String c (before +:+ needle +:+ after)) = true).
    cbn [Js.includes]. rewrite IH. apply orb_true_r.
Qed.

Lemma includes_classified (onLine : bool) (err : JS) (pattern : string) :
  In pattern network_failure_patterns ->
  Js.includes pattern (failure_message err) = true ->
  isNetworkOrServerError onLine err = true.
Proof.
  intros Hin Hincl. rewrite isNetworkOrServerError_unfold.
  apply orb_true_iff. left. apply orb_true_iff. right.
  apply existsb_exists. eauto.
Qed.

(** X13. A failure whose message contains one of the network-failure
    patterns anywhere, in any mix of upper and lower case, is classified as
    transient, whatever its status and whether the browser is online. *)
Theorem transient_message_any_case (onLine : bool) (err : JS)
    (before variant after : string) :
  In (Js.toLowerCase variant) network_failure_patterns ->
  Js.opt_field "message" err = JStr (before +:+ variant +:+ after) ->
  isNetworkOrServerError onLine err = true.
Proof.
  intros Hin Hmsg. apply (includes_classified onLine err _ Hin).
  unfold failure_message. rewrite Hmsg. cbn [Js.coalesce Js.nullish Js.to_String].
  rewrite !toLowerCase_app. apply includes_app.
Qed.

End ClassifierMessages.

Section Retry.

Variable env : Env.

Lemma retryTick_run (w : World) :
  retryTick env w
  = if is_cloud (cloudMode (store w)) && initializedRef w
       && is_error (cloudStatus (store w))
       && Js.truthy (pending_in env (localStorage w))
    then pushSnapshot env (pending_in env (localStorage w)) w
    else (Return tt, w).
Proof.
  unfold retryTick, bind, get_world.
  destruct (is_cloud (cloudMode (store w))); cbn [negb orb andb]; [| reflexivity].
  destruct (initializedRef w); cbn [negb orb andb]; [| reflexivity].
  destruct (is_error (cloudStatus (store w))); cbn [negb andb]; [| reflexivity].
  rewrite getPendingSnapshot_run.
  destruct (Js.truthy (pending_in env (localStorage w))); reflexivity.
Qed.

(** X14. The retry timer takes over exactly the permanent failures.  In
    cloud mode, initialized, on a working storage: after a push whose
    upsert failed with an error that is not transient, the next tick pushes
    the same snapshot again; after a push that ended [Offline] (no
    connectivity, or a transient failure) the tick does nothing. *)
Theorem retryTick_after_push (snapshot : JS) (w : World) :
  mode (localStorage w) = Working ->
  cloudMode (store w) = Cloud ->
  initializedRef w = true ->
  JSON_parse env (stored_text snapshot) = Some snapshot ->
  Js.truthy snapshot = true ->
  let w' := snd (pushSnapshot env snapshot w) in
  (cloudStatus (store w') = Error ->
     retryTick env w' = pushSnapshot env snapshot w')
  /\ (cloudStatus (store w') <> Error -> retryTick env w' = (Return tt, w')).
Proof.
  intros Hmode Hcloud Hinit Hparse Htruthy w'.
  rewrite retryTick_run.
  assert (Hframe : cloudMode (store w') = Cloud /\ initializedRef w' = true).
  { unfold w'. rewrite pushSnapshot_run. cbn [snd].
    destruct (network_status env (trace w));
      [destruct (cloud_upsert env (EvGetNetworkStatus :: trace w) snapshot) |];
      cbn; auto. }
  destruct Hframe as (-> & ->). cbn [is_cloud andb].
  split.
  - intros Hstatus. rewrite Hstatus. cbn [is_error andb].
    assert (Hpending : pending_in env (localStorage w') = snapshot).
    { revert Hstatus. unfold w'. rewrite pushSnapshot_run. cbn [snd].
      assert (Hbuf : pending_in env (try_set KEY (stored_text snapshot) (localStorage w))
                     = snapshot).
      { unfold pending_in.
        rewrite readable_text_try_set by (auto using stored_text_nonempty).
        now rewrite Hparse. }
      destruct (network_status env (trace w));
        [destruct (cloud_upsert env (EvGetNetworkStatus :: trace w) snapshot) |];
        cbn [store localStorage on_store on_storage upsert_issued logged];
        unfold with_cloudStatus; cbn [cloudStatus]; intros Hst;
        try discriminate Hst; exact Hbuf. }
    rewrite Hpending, Htruthy. reflexivity.
  - intros Hstatus.
    destruct (cloudStatus (store w')); try reflexivity. now contradiction Hstatus.
Qed.

End Retry.

Section SyncOutcomes.

Variable env : Env.

(** X15. Lock contention is not an error: when another context holds the
    lock, the reconciliation ends at once with the optimistic status [Ok];
    it makes no call, and it leaves localStorage - the foreign lock and any
    Pending Change - untouched. *)
Theorem syncUnderLock_busy (session : JS) (w : World) :
  mode (localStorage w) <> Denied ->
  lock_held (Date_now env (trace w)) (localStorage w) ->
  syncUnderLock env session w
  = (Return tt,
     on_store (with_cloudSyncReady (JBool true))
       (with_initializedRef true (on_store (with_cloudStatus Ok) w))).
Proof.
  intros Hmode Hheld. unfold syncUnderLock, bind.
  rewrite acquireSyncLock_run. cbv zeta.
  apply lock_held_fresh in Hheld as (text & Hget & Hfresh).
  rewrite Hget, Hfresh.
  destruct (mode (localStorage w)); try (now contradiction Hmode); reflexivity.
Qed.

Lemma syncBody_pull (session : JS) (w : World) :
  Js.truthy (pending_in env (localStorage w)) = false ->
  syncBody env session w
  = match cloud_get env (trace w) with
    | Return cloud =>
        applyCloud env session cloud
          (logged [EvGetCloudState] (on_store (with_cloudStatus Syncing) w))
    | Throw err =>
        (Throw err, logged [EvGetCloudState] (on_store (with_cloudStatus Syncing) w))
    end.
Proof.
  intros Hpending. unfold syncBody, bind, setCloudStatus.
  rewrite modify_store_run, getPendingSnapshot_run.
  cbn [localStorage on_store]. rewrite Hpending.
  unfold pullFromCloud, bind, getCloudState. rewrite call_run.
  cbn [trace on_store]. destruct (cloud_get env (trace w)); reflexivity.
Qed.

Lemma syncFailed_run (err : JS) (w : World) :
  syncFailed env err w
  = (Return tt,
     on_store (with_cloudSyncReady (JBool true))
       (with_initializedRef true
          (on_storage (try_set KEY (stored_text (snapshot_of (store w))))
             (on_store
                (with_cloudStatus
                   (if isNetworkOrServerError (navigator_onLine env (trace w)) err
                    then Offline else Error))
                w)))).
Proof.
  unfold syncFailed, classify. unfold bind, navigator_onLine_now, ret, setCloudStatus.
  rewrite modify_store_run, getSnapshot_run, setPendingSnapshot_run.
  reflexivity.
Qed.

(** X16. A failed pull loses nothing.  With nothing pending, when
    [getCloudState] fails with [err] the reconciliation returns normally:
    the status is [Offline] or [Error] as [err] is classified, the current
    in-memory snapshot is handed to the Pending-Change Buffer, the gate is
    marked initialized and the lock is released. *)
Theorem pull_failure_buffers_snapshot (session err : JS) (w : World) :
  Js.truthy (pending_in env (localStorage w)) = false ->
  cloud_get env (trace w) = Throw err ->
  syncLocked env session w
  = (Return tt,
     on_storage (try_remove SYNC_LOCK_KEY)
       (on_store (with_cloudSyncReady (JBool true))
          (with_initializedRef true
             (on_storage (try_set KEY (stored_text (snapshot_of (store w))))
                (on_store
                   (with_cloudStatus
                      (if isNetworkOrServerError
                            (navigator_onLine env (EvGetCloudState :: trace w)) err
                       then Offline else Error))
                   (logged [EvGetCloudState] w)))))).
Proof.
  intros Hpending Hget. unfold syncLocked. rewrite try_finally_release.
  unfold try_catch. rewrite (syncBody_pull session w Hpending), Hget.
  rewrite syncFailed_run. reflexivity.
Qed.

Lemma setItem_run (k v : string) (w : World) :
  mode (localStorage w) = Working ->
  LocalStorage.setItem k v w = (Return tt, on_storage (try_set k v) w).
Proof.
  intros Hmode. unfold LocalStorage.setItem, on_storage, try_set, put_storage.
  now rewrite Hmode.
Qed.

Lemma updateLastAuthTimestamp_store (w : World) :
  updateLastAuthTimestamp env w
  = (Return tt,
     on_store
       (with_security
          (JObj [("biometricEnabled",
                  Js.coalesce (Js.opt_field "biometricEnabled" (security (store w)))
                    (JBool false));
                 ("lastAuthTimestamp", JNum (Date_now env (trace w)))]))
       (on_storage
          (try_set STORAGE_KEY
             (stored_text
                (store_json
                   (with_security
                      (JObj [("biometricEnabled",
                              Js.coalesce
                                (Js.opt_field "biometricEnabled" (security (store w)))
                                (JBool false));
                             ("lastAuthTimestamp", JNum (Date_now env (trace w)))])
                      (store w)))))
          w)).
Proof.
  unfold updateLastAuthTimestamp, bind, get_store, now.
  rewrite saveState_run, modify_store_run. reflexivity.
Qed.

Ltac storage_facts Hmode :=
  repeat first
    [ rewrite try_set_mode
    | rewrite mirror_of_mode
    | rewrite try_set_lookup_ne by discriminate
    | rewrite mirror_of_lookup_ne by discriminate
    | exact Hmode
    | reflexivity ].

Ltac remote_facts Hmode :=
  split;
    [| cbn [localStorage on_storage on_store logged with_initializedRef];
       storage_facts Hmode];
  unfold remote_installed;
  cbn [store localStorage initializedRef trace on_storage on_store logged
         with_initializedRef];
  unfold with_cloudSyncReady, with_cloudStatus, with_security, with_data,
    with_subscription;
  cbn [cloudStatus schemaVersion welcomeSeen security];
  repeat (split; [storage_facts Hmode |]);
  eexists; (split; [rewrite ?app_assoc; reflexivity | repeat constructor]).

Lemma applyCloud_remote (session cloud : JS) (w : World) :
  mode (localStorage w) = Working ->
  Js.truthy cloud = true ->
  exists w',
    applyCloud env session cloud w = (Return tt, w')
    /\ remote_installed cloud w w'
    /\ items (localStorage w') !! SYNC_LOCK_KEY
       = items (localStorage w) !! SYNC_LOCK_KEY.
Proof.
  intros Hmode Htruthy. unfold applyCloud. rewrite Htruthy.
  assert (Hnn : Js.nullish cloud = false) by now apply truthy_not_nullish.
  unfold bind, setSubscription, setCloudStatus, setCloudSyncReady,
    set_initializedRef, try_catch, get_field, ret.
  rewrite getItem_run by (rewrite Hmode; discriminate).
  destruct (negb (bool_decide (items (localStorage w)
                                 !! "app.onboarding.completed.v2" = Some "true"))
            && Js.truthy (Js.field "welcomeSeen" cloud)).
  - rewrite setItem_run by exact Hmode. unfold now.
    rewrite setItem_run by (cbn [localStorage on_storage]; storage_facts Hmode).
    rewrite replaceAllData_run by exact Hnn.
    destruct (Js.nullish session);
      [| destruct (Js.nullish (Js.field "user" session));
         [| rewrite call_run;
            match goal with
            | |- context [subscription_get env ?tr ?uid] =>
                destruct (subscription_get env tr uid) as [sub | e]
            end ] ];
      unfold throw; cbv beta iota;
      rewrite ?modify_store_run; cbv beta iota;
      rewrite updateLastAuthTimestamp_store; cbv beta iota;
      rewrite !modify_store_run, emit_run; cbv beta iota;
      (eexists; split; [reflexivity |]); remote_facts Hmode.
  - rewrite replaceAllData_run by exact Hnn.
    destruct (Js.nullish session);
      [| destruct (Js.nullish (Js.field "user" session));
         [| rewrite call_run;
            match goal with
            | |- context [subscription_get env ?tr ?uid] =>
                destruct (subscription_get env tr uid) as [sub | e]
            end ] ];
      unfold throw; cbv beta iota;
      rewrite ?modify_store_run; cbv beta iota;
      rewrite updateLastAuthTimestamp_store; cbv beta iota;
      rewrite !modify_store_run, emit_run; cbv beta iota;
      (eexists; split; [reflexivity |]); remote_facts Hmode.
Qed.

(** X17. Remote data wins and is never pushed back.  With nothing pending
    and a remote snapshot present, the reconciliation installs the remote
    document (normalised to schema version 1), ends with status [Ok] and
    the gate initialized, issues no upsert, leaves the Pending-Change
    Buffer as it was and leaves no lock record behind. *)
Theorem remote_data_wins (session cloud : JS) (w : World) :
  mode (localStorage w) = Working ->
  Js.truthy (pending_in env (localStorage w)) = false ->
  cloud_get env (trace w) = Return cloud ->
  Js.truthy cloud = true ->
  exists w',
    syncLocked env session w = (Return tt, w')
    /\ remote_installed cloud w w'
    /\ items (localStorage w') !! SYNC_LOCK_KEY = None.
Proof.
  intros Hmode Hpending Hget Htruthy.
  unfold syncLocked. rewrite try_finally_release.
  unfold try_catch. rewrite (syncBody_pull session w Hpending), Hget.
  destruct (applyCloud_remote session cloud
              (logged [EvGetCloudState] (on_store (with_cloudStatus Syncing) w))
              Hmode Htruthy)
    as (w1 & Hrun & Hinst & _).
  rewrite Hrun. cbn [fst snd]. eexists. split; [reflexivity |].
  destruct Hinst as (Hst & Hini & Hver & Hseen & Hbio & Hkey & Hm & events & Htr & Hev).
  cbn [localStorage store trace logged on_store] in Hkey, Hm, Htr.
  split.
  - unfold remote_installed.
    cbn [store localStorage initializedRef trace on_storage].
    rewrite try_remove_mode, try_remove_lookup_ne by discriminate.
    repeat (split; [assumption |]).
    exists (events ++ [EvGetCloudState]). split.
    + rewrite Htr, <- app_assoc. reflexivity.
    + apply Forall_app. split; [exact Hev | repeat constructor].
  - cbn [localStorage on_storage]. apply try_remove_lookup.
    rewrite Hm, Hmode. discriminate.
Qed.

Lemma applyCloud_seed (session cloud : JS) (w : World) :
  Js.truthy cloud = false ->
  applyCloud env session cloud w
  = let asked :=
      logged [EvUpsertCloudState (snapshot_of (store w)) (lock_cell w)] w in
    match cloud_upsert env (trace w) (snapshot_of (store w)) with
    | Return _ =>
        (Return tt,
         logged [EvInitializePushNotifications]
           (on_store (with_cloudSyncReady (JBool true))
              (with_initializedRef true
                 (on_store (with_cloudStatus Ok)
                    (last_auth_stamped (Date_now env (trace asked)) asked)))))
    | Throw err => (Throw err, asked)
    end.
Proof.
  intros Hfalsy. unfold applyCloud. rewrite Hfalsy.
  unfold bind, setCloudStatus, setCloudSyncReady, set_initializedRef.
  rewrite getSnapshot_run, upsertCloudState_run.
  destruct (cloud_upsert env (trace w) (snapshot_of (store w))); [| reflexivity].
  rewrite updateLastAuthTimestamp_store, !modify_store_run, emit_run.
  reflexivity.
Qed.

(** X18. The first reconciliation of an account seeds the remote store.
    With nothing pending and no remote snapshot, the current in-memory
    snapshot is upserted exactly once, under the lock record found in the
    lock cell.  When the upsert succeeds the status is [Ok] and the
    authentication time is stamped; when it fails the same snapshot is
    handed to the Pending-Change Buffer and the status follows the
    classification of the failure.  Either way the call returns normally,
    the gate is initialized and the lock is released. *)
Theorem first_sync_seeds_cloud (session cloud : JS) (w : World) :
  Js.truthy (pending_in env (localStorage w)) = false ->
  cloud_get env (trace w) = Return cloud ->
  Js.truthy cloud = false ->
  let seed := snapshot_of (store w) in
  let asked :=
    logged [EvUpsertCloudState seed (lock_cell w); EvGetCloudState]
      (on_store (with_cloudStatus Syncing) w) in
  syncLocked env session w
  = (Return tt,
     on_storage (try_remove SYNC_LOCK_KEY)
       match cloud_upsert env (EvGetCloudState :: trace w) seed with
       | Return _ =>
           logged [EvInitializePushNotifications]
             (on_store (with_cloudSyncReady (JBool true))
                (with_initializedRef true
                   (on_store (with_cloudStatus Ok)
                      (last_auth_stamped (Date_now env (trace asked)) asked))))
       | Throw err =>
           on_store (with_cloudSyncReady (JBool true))
             (with_initializedRef true
                (on_storage (try_set KEY (stored_text seed))
                   (on_store
                      (with_cloudStatus
                         (if isNetworkOrServerError
                               (navigator_onLine env (trace asked)) err
                          then Offline else Error))
                      asked)))
       end).
Proof.
  intros Hpending Hget Hfalsy seed asked.
  unfold syncLocked. rewrite try_finally_release.
  unfold try_catch. rewrite (syncBody_pull session w Hpending), Hget.
  rewrite (applyCloud_seed session cloud _ Hfalsy). cbv zeta.
  cbn [trace store logged on_store].
  change (snapshot_of (with_cloudStatus Syncing (store w))) with seed.
  change ([EvGetCloudState] ++ trace w) with (EvGetCloudState :: trace w).
  destruct (cloud_upsert env (EvGetCloudState :: trace w) seed) as [[] | err].
  - reflexivity.
  - rewrite syncFailed_run. reflexivity.
Qed.

End SyncOutcomes.

Section Initialization.

Variable env : Env.

Lemma parseInt_str_truthy (text : string) (n : Z) :
  Js.parseInt text = Some n -> str_truthy (Some text) = true.
Proof. destruct text; [discriminate | reflexivity]. Qed.

Lemma removeItem_run (k : string) (w : World) :
  mode (localStorage w) <> Denied ->
  LocalStorage.removeItem k w = (Return tt, on_storage (try_remove k) w).
Proof.
  intros Hmode. unfold LocalStorage.removeItem, on_storage, try_remove, put_storage.
  destruct (mode (localStorage w)); try reflexivity. now contradiction Hmode.
Qed.

Lemma checkPendingOtp_run (session : JS) (text : string) (timestamp : Z) (w : World) :
  mode (localStorage w) <> Denied ->
  Js.truthy session = true ->
  items (localStorage w) !! "auth.pendingOtpVerification" = Some text ->
  Js.parseInt text = Some timestamp ->
  checkPendingOtp env session w
  = if 10 * 60 * 1000 <? Date_now env (trace w) - timestamp then
      let w1 := logged [EvSignOut]
                  (on_storage (try_remove "auth.pendingOtpVerification") w) in
      match auth_signOut env (trace w) with
      | Return _ => (Return true, logged [EvReload] w1)
      | Throw err => (Throw err, w1)
      end
    else (Return false, w).
Proof.
  intros Hmode Hsession Hotp Hparse. unfold checkPendingOtp. rewrite Hsession.
  rewrite (bind_Return _ _ _ _ _ (getItem_run _ w Hmode)), Hotp.
  rewrite (parseInt_str_truthy _ _ Hparse).
  unfold bind at 1, now. rewrite Hparse.
  destruct (10 * 60 * 1000 <? Date_now env (trace w) - timestamp); [| reflexivity].
  rewrite (bind_Return _ _ _ _ _ (removeItem_run _ w Hmode)).
  unfold bind. rewrite call_run. cbn [trace on_storage].
  destruct (auth_signOut env (trace w)) as [[] | err]; reflexivity.
Qed.

(** X19. A sign-in abandoned at the one-time-code step does not survive a
    restart.  When a session is found together with an OTP marker older
    than ten minutes, the initialization removes the marker, signs the
    session out and reloads the page: it touches neither the in-memory
    state nor any other key, and calls nothing else.  With a marker of ten
    minutes or less it goes on with the session as if no marker existed. *)
Theorem initForSession_abandoned_otp (session : JS) (text : string) (timestamp : Z)
    (w : World) :
  mode (localStorage w) <> Denied ->
  network_status env (trace w) = true ->
  auth_getSession env (EvGetNetworkStatus :: trace w) = Return session ->
  Js.truthy session = true ->
  items (localStorage w) !! "auth.pendingOtpVerification" = Some text ->
  Js.parseInt text = Some timestamp ->
  let tr := EvGetSession :: EvGetNetworkStatus :: trace w in
  let elapsed := Date_now env tr - timestamp in
  (10 * 60 * 1000 < elapsed ->
     initForSession env w
     = let w1 := on_storage (try_remove "auth.pendingOtpVerification") w in
       match auth_signOut env tr with
       | Return _ =>
           (Return tt,
            logged [EvReload; EvSignOut; EvGetSession; EvGetNetworkStatus] w1)
       | Throw err =>
           (Throw err, logged [EvSignOut; EvGetSession; EvGetNetworkStatus] w1)
       end)
  /\ (elapsed <= 10 * 60 * 1000 ->
      initForSession env w
      = initWithSession env session (logged [EvGetSession; EvGetNetworkStatus] w)).
Proof.
  intros Hmode Hnet Hget Hsession Hotp Hparse tr elapsed.
  assert (Hrun : initForSession env w
                 = (abandoned <- checkPendingOtp env session ;;
                    if abandoned then ret tt
                    else if negb (Js.truthy session)
                         then initNoSession env true
                         else initWithSession env session)%js
                     (logged [EvGetSession; EvGetNetworkStatus] w)).
  { unfold initForSession. unfold bind at 1. rewrite getNetworkStatus_run, Hnet.
    cbn [negb]. unfold bind at 1, resolveSession, try_catch. rewrite call_run.
    cbn [trace logged]. change ([EvGetNetworkStatus] ++ trace w)
      with (EvGetNetworkStatus :: trace w).
    rewrite Hget. reflexivity. }
  rewrite Hrun. unfold bind.
  rewrite (checkPendingOtp_run session text timestamp) by assumption.
  cbn [trace logged app]. fold tr. fold elapsed.
  split; intros Helapsed.
  - apply Z.ltb_lt in Helapsed. rewrite Helapsed. cbv zeta.
    destruct (auth_signOut env tr) as [[] | err]; reflexivity.
  - apply Z.ltb_ge in Helapsed. rewrite Helapsed, Hsession. reflexivity.
Qed.

Lemma signInAnonymously_try_run (w : World) :
  try_catch (signInAnonymously_ok env) (fun _ => ret false) w
  = (Return (anonymous_session_created (auth_signInAnonymously env (trace w))),
     logged [EvSignInAnonymously] w).
Proof.
  unfold try_catch, signInAnonymously_ok, bind. rewrite call_run.
  unfold anonymous_session_created, get_field.
  destruct (auth_signInAnonymously env (trace w)) as [result | err]; [| reflexivity].
  destruct (Js.nullish result); reflexivity.
Qed.

Lemma initNoSession_run (isOnline : bool) (w : World) :
  mode (localStorage w) <> Denied ->
  items (localStorage w) !! "app.wasAuthenticated" <> Some "true" ->
  initNoSession env isOnline w
  = let signedIn :=
      is_cloud (cloudMode (store w)) && Js.truthy (email (user (store w))) in
    if DEV env && signedIn then (Return tt, logged [EvSetTimeout 500] w)
    else
      let w1 :=
        on_store (with_user no_user)
          (if signedIn
           then snd (wipe_local_data
                       (on_storage (try_remove STORAGE_KEY)
                          (on_storage (try_remove KEY) w)))
           else w) in
      (Return tt,
       if isOnline then
         if anonymous_session_created (auth_signInAnonymously env (trace w1))
         then logged [EvSignInAnonymously] w1
         else guest_fallback (logged [EvSignInAnonymously] w1)
       else guest_fallback w1).
Proof.
  intros Hmode Hcrumb. unfold initNoSession.
  rewrite (bind_Return _ _ _ _ _ (getItem_run _ w Hmode)).
  rewrite bool_decide_eq_false_2 by exact Hcrumb.
  unfold bind at 1, get_store. cbv zeta.
  destruct (is_cloud (cloudMode (store w)) && Js.truthy (email (user (store w))));
    rewrite ?andb_true_r, ?andb_false_r.
  - destruct (DEV env); [reflexivity |].
    unfold bind at 1. unfold bind at 1. rewrite clearPendingSnapshot_run.
    unfold bind at 1. rewrite clearState_run.
    rewrite wipe_local_data_run. cbn [snd].
    unfold bind at 1, setUser. rewrite modify_store_run.
    destruct isOnline.
    + unfold bind at 1. rewrite signInAnonymously_try_run.
      destruct (anonymous_session_created _); reflexivity.
    + reflexivity.
  - unfold bind at 1. unfold ret at 1. unfold bind at 1, setUser.
    rewrite modify_store_run.
    destruct isOnline.
    + unfold bind at 1. rewrite signInAnonymously_try_run.
      destruct (anonymous_session_created _); reflexivity.
    + reflexivity.
Qed.

(** X20. Without a session, a guest keeps everything.  When no
    breadcrumb of an authenticated session exists and the store is not in
    cloud mode with an e-mail, the initialization leaves localStorage and
    the document in memory as they are and calls no remote store; it
    clears the identity, and either an anonymous session was created (the
    gate then waits for SIGNED_IN) or it falls back to guest mode, status
    idle, not initialized. *)
Theorem initNoSession_guest_keeps_data (isOnline : bool) (w : World) :
  mode (localStorage w) <> Denied ->
  items (localStorage w) !! "app.wasAuthenticated" <> Some "true" ->
  is_cloud (cloudMode (store w)) && Js.truthy (email (user (store w))) = false ->
  let w' := snd (initNoSession env isOnline w) in
  let created :=
    isOnline && anonymous_session_created (auth_signInAnonymously env (trace w)) in
  fst (initNoSession env isOnline w) = Return tt
  /\ localStorage w' = localStorage w
  /\ snapshot_of (store w') = snapshot_of (store w)
  /\ user (store w') = no_user
  /\ trace w' = (if isOnline then [EvSignInAnonymously] else []) ++ trace w
  /\ (if created
      then cloudMode (store w') = cloudMode (store w)
           /\ cloudStatus (store w') = cloudStatus (store w)
           /\ initializedRef w' = initializedRef w
           /\ cloudSyncReady (store w') = cloudSyncReady (store w)
      else cloudMode (store w') = Guest
           /\ cloudStatus (store w') = Idle
           /\ initializedRef w' = false
           /\ cloudSyncReady (store w') = JBool true).
Proof.
  intros Hmode Hcrumb Hguest w' created. unfold w', created.
  rewrite initNoSession_run by assumption. cbv zeta. rewrite Hguest, andb_false_r.
  cbn [fst snd trace on_store].
  destruct isOnline; cbn [andb];
    [destruct (anonymous_session_created (auth_signInAnonymously env (trace w))) |];
    repeat split.
Qed.


(** X22. Going offline and coming back pushes what was on screen when the
    connection was lost.  After the offline transition of an initialized
    gate, the next online transition pushes exactly the snapshot the store
    held at the offline transition. *)
Theorem offline_then_online (w : World) :
  mode (localStorage w) = Working ->
  initializedRef w = true ->
  JSON_parse env (stored_text (snapshot_of (store w)))
  = Some (snapshot_of (store w)) ->
  let w1 := snd (networkListener env false w) in
  networkListener env true w1 = pushSnapshot env (snapshot_of (store w)) w1.
Proof.
  intros Hmode Hinit Hparse w1. unfold w1, networkListener.
  rewrite onOffline_run. cbn [snd]. rewrite onOnline_run.
  cbn [initializedRef on_storage on_store localStorage].
  rewrite Hinit.
  assert (Hpending :
    pending_in env (try_set KEY (stored_text (snapshot_of (store w))) (localStorage w))
    = snapshot_of (store w)).
  { unfold pending_in.
    rewrite readable_text_try_set by (auto using stored_text_nonempty).
    now rewrite Hparse. }
  rewrite Hpending. reflexivity.
Qed.

End Initialization.

Section LanguageDetector.

Import customDetector.

Lemma is_supported_In (lng : string) : is_supported lng = true -> In lng supported.
Proof.
  unfold is_supported. rewrite existsb_exists. intros (x & Hin & Heq).
  apply String.eqb_eq in Heq. now subst x.
Qed.

Lemma lookup_run (navigator_language : string) (w : World) :
  mode (localStorage w) <> Denied ->
  customDetector.lookup navigator_language w
  = (Return
       (match items (localStorage w) !! "app_language" with
        | Some lng =>
            if is_supported lng then lng
            else if is_supported (before_dash navigator_language)
                 then before_dash navigator_language else "es"
        | None =>
            if is_supported (before_dash navigator_language)
            then before_dash navigator_language else "es"
        end), w).
Proof.
  intros Hmode. unfold customDetector.lookup.
  rewrite (bind_Return _ _ _ _ _ (getItem_run _ w Hmode)).
  destruct (items (localStorage w) !! "app_language") as [lng |];
    cbn [str_truthy default from_option]; unfold id.
  - destruct lng as [| c lng]; cbn [negb String.eqb andb].
    + change (is_supported EmptyString) with false. cbv iota.
      destruct (is_supported (before_dash navigator_language)); reflexivity.
    + destruct (is_supported (String c lng)); [reflexivity |].
      destruct (is_supported (before_dash navigator_language)); reflexivity.
  - cbn [andb]. destruct (is_supported (before_dash navigator_language)); reflexivity.
Qed.

(** X23. The detector only ever answers with a supported language.
    Whatever localStorage holds and whatever the browser reports, on a
    readable storage [lookup] returns one of es, en, pt, fr and changes
    nothing; the storage is read without a guard, so when the access is
    denied the exception leaves [lookup]. *)
Theorem lookup_supported (navigator_language : string) (w : World) :
  (mode (localStorage w) <> Denied ->
     exists lng,
       customDetector.lookup navigator_language w = (Return lng, w)
       /\ In lng supported)
  /\ (mode (localStorage w) = Denied ->
      customDetector.lookup navigator_language w = (Throw SecurityError, w)).
Proof.
  split.
  - intros Hmode. rewrite lookup_run by exact Hmode. eexists. split; [reflexivity |].
    destruct (items (localStorage w) !! "app_language") as [lng |].
    + destruct (is_supported lng) eqn:Hlng; [now apply is_supported_In |].
      destruct (is_supported (before_dash navigator_language)) eqn:Hnav;
        [now apply is_supported_In | cbn; auto].
    + destruct (is_supported (before_dash navigator_language)) eqn:Hnav;
        [now apply is_supported_In | cbn; auto].
  - intros Hmode. unfold customDetector.lookup, bind, LocalStorage.getItem.
    now rewrite Hmode.
Qed.

(** X24. The language chosen by the user is the one detected next time.
    After [cacheUserLanguage lng] on a working storage, [lookup] returns
    [lng] when it is a supported language, whatever the browser reports;
    an unsupported value is stored but ignored, and the answer is the one
    of the browser language, or Spanish. *)
Theorem cacheUserLanguage_lookup (lng navigator_language : string) (w : World) :
  mode (localStorage w) = Working ->
  let w1 := snd (cacheUserLanguage lng w) in
  fst (cacheUserLanguage lng w) = Return tt
  /\ items (localStorage w1) !! "app_language" = Some lng
  /\ customDetector.lookup navigator_language w1
     = (Return
          (if is_supported lng then lng
           else if is_supported (before_dash navigator_language)
                then before_dash navigator_language else "es"), w1).
Proof.
  intros Hmode w1. unfold w1, cacheUserLanguage.
  rewrite setItem_run by exact Hmode. cbn [fst snd].
  assert (Hstored :
    items (localStorage (on_storage (try_set "app_language" lng) w))
      !! "app_language" = Some lng).
  { cbn [localStorage on_storage]. now apply try_set_lookup. }
  split; [reflexivity |]. split; [exact Hstored |].
  rewrite lookup_run
    by (cbn [localStorage on_storage]; rewrite try_set_mode, Hmode; discriminate).
  now rewrite Hstored.
Qed.

End LanguageDetector.

Section Frame.

Import AppFrame.

Lemma prefix_head (c d : ascii) (p s : string) :
  String.prefix (String c p) (String d s) = Ascii.eqb c d && String.prefix p s.
Proof.
  cbn [String.prefix]. destruct (Ascii.ascii_dec c d) as [-> | Hne].
  - now rewrite Ascii.eqb_refl.
  - apply Ascii.eqb_neq in Hne. now rewrite Hne.
Qed.

Lemma onboarding_not_banner_route (pathname : string) :
  String.prefix "/onboarding" pathname = true ->
  String.prefix "/settings/" pathname = false
  /\ String.prefix "/profile/subscription" pathname = false.
Proof.
  destruct pathname as [| c0 pathname]; [discriminate |].
  rewrite !prefix_head.
  destruct (Ascii.eqb "/" c0); [| discriminate]. cbn [andb].
  destruct pathname as [| c1 pathname]; [discriminate |].
  rewrite !prefix_head.
  destruct (Ascii.eqb "o" c1) eqn:Ho; [| discriminate].
  apply Ascii.eqb_eq in Ho. subst c1. intros _. split; reflexivity.
Qed.

(** X25. An advertising banner is requested exactly on the settings and
    subscription screens of a native build, for a user without Pro; it is
    never requested on an onboarding route, and whenever it is requested
    the top header and the bottom bar are not rendered. *)
Theorem bannerEffect_showBanner (native isPro : bool) (pathname : string) :
  (bannerEffect native isPro pathname = Some showBanner
   <-> native = true /\ isPro = false
       /\ (String.prefix "/settings/" pathname = true
           \/ String.prefix "/profile/subscription" pathname = true))
  /\ (bannerEffect native isPro pathname = Some showBanner ->
      chromeRendered pathname = false
      /\ String.prefix "/onboarding" pathname = false).
Proof.
  unfold bannerEffect, chromeRendered, isFormRoute, isNoBannerRoute.
  destruct native, isPro; cbn [negb andb];
    rewrite ?andb_false_r; cbn [andb];
    try (split; [split; [discriminate | intros (? & ? & _); discriminate]
                | discriminate]).
  destruct (String.prefix "/onboarding" pathname) eqn:Honb.
  - destruct (onboarding_not_banner_route pathname Honb) as (-> & ->).
    cbn. split; [split; [discriminate | intros (_ & _ & [? | ?]); discriminate]
                | discriminate].
  - rewrite orb_false_r, andb_true_r.
    destruct (String.prefix "/settings/" pathname);
      destruct (String.prefix "/profile/subscription" pathname); cbn;
      (split; [split; [intros H; try discriminate H; auto
                      | intros (_ & _ & [? | ?]); try discriminate; reflexivity]
              | intros H; try discriminate H; auto]).
Qed.

End Frame.

Section SessionLookup.

Variable env : Env.



End SessionLookup.

Section PushInvariant.

Variable env : Env.

Lemma document_kept_refl (w : World) : document_kept w w.
Proof. repeat split. Qed.

Lemma pushSnapshot_document_kept (snapshot : JS) (w : World) :
  document_kept w (snd (pushSnapshot env snapshot w)).
Proof.
  rewrite pushSnapshot_run. cbn [snd]. unfold document_kept, upsert_issued.
  destruct (network_status env (trace w));
    [destruct (cloud_upsert env (EvGetNetworkStatus :: trace w) snapshot) |];
    cbn [store localStorage initializedRef on_store on_storage logged];
    rewrite ?try_set_mode, ?try_remove_mode,
      ?try_set_lookup_ne, ?try_remove_lookup_ne by discriminate;
    repeat split.
Qed.

(** X27. A push never touches the document.  [pushSnapshot], and with it
    the debounced push, the retry timer and the online transition of the
    connectivity listener, change only the sync status, the Pending-Change
    Buffer and the trace: the document in memory, the identity, the mode,
    the flag of the gate, the durable state record and the lock cell are
    as before. *)
Theorem pushes_keep_document (snapshot : JS) (w : World) :
  document_kept w (snd (pushSnapshot env snapshot w))
  /\ document_kept w (snd (pushNow env w))
  /\ document_kept w (snd (retryTick env w))
  /\ document_kept w (snd (networkListener env true w)).
Proof.
  split; [apply pushSnapshot_document_kept |]. split; [| split].
  - unfold pushNow, bind. rewrite getSnapshot_run.
    apply pushSnapshot_document_kept.
  - rewrite retryTick_run.
    destruct (is_cloud (cloudMode (store w)) && initializedRef w
              && is_error (cloudStatus (store w))
              && Js.truthy (pending_in env (localStorage w)));
      [apply pushSnapshot_document_kept | apply document_kept_refl].
  - unfold networkListener. rewrite onOnline_run.
    destruct (initializedRef w); [| apply document_kept_refl].
    destruct (Js.truthy (pending_in env (localStorage w)));
      [apply pushSnapshot_document_kept | apply document_kept_refl].
Qed.

End PushInvariant.

Section OAuthTransition.

Variable env : Env.

(** X28. A SIGNED_OUT event that arrives during an OAuth redirect is
    ignored.  With a transition marker younger than two minutes the
    handler changes nothing and calls nothing; with an older marker it
    removes the marker and then handles the sign-out exactly as if the
    marker had never been there. *)
Theorem onSignedOut_oauth_transition (text : string) (started : Z) (w : World) :
  mode (localStorage w) <> Denied ->
  items (localStorage w) !! "app.oauthTransition" = Some text ->
  Js.parseInt text = Some started ->
  let elapsed := Date_now env (trace w) - started in
  (elapsed < 120000 -> onSignedOut env w = (Return tt, w))
  /\ (120000 <= elapsed ->
      onSignedOut env w
      = onSignedOut env (on_storage (try_remove "app.oauthTransition") w)).
Proof.
  intros Hmode Hmarker Hparse elapsed.
  assert (Htruthy : str_truthy (Some text) = true)
    by (destruct text; [discriminate | reflexivity]).
  split; intros Helapsed.
  - unfold onSignedOut.
    rewrite (bind_Return _ _ _ _ _ (getItem_run _ w Hmode)), Hmarker, Htruthy.
    unfold bind at 1. unfold bind at 1, now. rewrite Hparse. fold elapsed.
    apply Z.ltb_lt in Helapsed. rewrite Helapsed. reflexivity.
  - set (w1 := on_storage (try_remove "app.oauthTransition") w).
    assert (Hmode1 : mode (localStorage w1) <> Denied).
    { unfold w1. cbn [localStorage on_storage]. now rewrite try_remove_mode. }
    assert (Hgone : items (localStorage w1) !! "app.oauthTransition" = None).
    { unfold w1. cbn [localStorage on_storage]. now apply try_remove_lookup. }
    unfold onSignedOut.
    rewrite (bind_Return _ _ _ _ _ (getItem_run _ w Hmode)), Hmarker, Htruthy.
    rewrite (bind_Return _ _ _ _ _ (getItem_run _ w1 Hmode1)), Hgone.
    unfold bind at 1. unfold bind at 1, now. rewrite Hparse. fold elapsed.
    apply Z.ltb_ge in Helapsed. rewrite Helapsed.
    unfold bind at 1. unfold LocalStorage.removeItem, put_storage.
    unfold bind at 2. unfold ret at 2. cbv iota.
    assert (Hremoved :
      (match mode (localStorage w) with
       | Denied => (Throw SecurityError, w)
       | m => (Return tt,
               mkWorld (mkStorage (delete "app.oauthTransition" (items (localStorage w))) m)
                 (store w) (initializedRef w) (trace w))
       end) = (Return tt, w1)).
    { unfold w1, on_storage, try_remove.
      destruct (mode (localStorage w)); try reflexivity. now contradiction Hmode. }
    rewrite Hremoved. reflexivity.
Qed.

End OAuthTransition.

Section Walkthroughs.

Lemma pending_round_trip_witness :
  let w' := snd (setPendingSnapshot sample_snapshot (scenario_world Working [] true)) in
  getPendingSnapshot online_env w' = (Return sample_snapshot, w')
  /\ hasPendingSnapshot online_env w' = (Return true, w').
Proof.
  apply (pending_round_trip online_env sample_snapshot sample_snapshot
           (scenario_world Working [] true)); reflexivity.
Defined.

Lemma durable_store_round_trip_witness :
  let w' := snd (saveState sample_snapshot (scenario_world Working [] true)) in
  loadState online_env w' = (Return sample_snapshot, w')
  /\ loadState online_env (snd (clearState w')) = (Return JNull, snd (clearState w')).
Proof.
  apply (durable_store_round_trip online_env sample_snapshot sample_snapshot
           (scenario_world Working [] true)); reflexivity.
Defined.

Lemma lock_excludes_other_contexts_witness :
  let held := snd (acquireSyncLock online_env (scenario_world Working [] true)) in
  acquireSyncLock (clock_env 1700000001000) held = (Return false, held)
  /\ fst (acquireSyncLock (clock_env 1700000005000) held) = Return true.
Proof.
  intros held. split.
  - apply (lock_excludes_other_contexts online_env (clock_env 1700000001000)
             (scenario_world Working [] true) held);
      [reflexivity | reflexivity | reflexivity | cbn; lia].
  - destruct (lock_excludes_other_contexts online_env (clock_env 1700000005000)
                (scenario_world Working [] true) held eq_refl eq_refl eq_refl)
      as (_ & Hexpired).
    destruct Hexpired as (-> & _); [cbn; lia | reflexivity].
Defined.

Lemma release_frees_the_lock_witness :
  let released := snd (releaseSyncLock (locked_world 1699999999000)) in
  items (localStorage released) !! SYNC_LOCK_KEY = None
  /\ fst (acquireSyncLock online_env released) = Return true.
Proof.
  intros released.
  destruct (release_frees_the_lock online_env (locked_world 1699999999000) released)
    as (_ & Hcell & Hacquire & _); [discriminate | reflexivity |].
  split; [exact Hcell | exact Hacquire].
Defined.

Lemma replaceAllData_getSnapshot_witness :
  let w1 := snd (replaceAllData sample_snapshot (scenario_world Working [] true)) in
  getSnapshot w1 = (Return sample_snapshot, w1)
  /\ store (snd (replaceAllData sample_snapshot w1)) = store w1.
Proof.
  apply (replaceAllData_getSnapshot sample_snapshot (scenario_world Working [] true)).
  reflexivity.
Defined.

Lemma welcomeSeen_survives_restart_witness :
  exists s,
    create online_env "2025-01"
      (snd (setWelcomeSeen true (scenario_world Working [] false)))
    = (Return s, snd (setWelcomeSeen true (scenario_world Working [] false)))
    /\ welcomeSeen s = JBool true.
Proof.
  apply (welcomeSeen_survives_restart online_env true "2025-01"
           (scenario_world Working [] false)).
  reflexivity.
Defined.

Lemma create_defaults_witness :
  create online_env "2025-01" (scenario_world Working [] false)
  = (Return
       (mkStore (JNum 1) defaultSecurity JUndef [] JNull false Guest Idle
          (JBool false) "2025-01" no_user),
     scenario_world Working [] false).
Proof.
  apply (create_defaults online_env "2025-01" (scenario_world Working [] false)).
  reflexivity.
Defined.

Lemma transient_message_any_case_witness :
  isNetworkOrServerError true
    (JObj [("message", JStr "TypeError: Failed to FETCH"); ("status", JNum 400)])
  = true.
Proof.
  apply (transient_message_any_case true _ "TypeError: " "Failed to FETCH" EmptyString).
  - cbn. auto.
  - reflexivity.
Defined.

Lemma retryTick_after_push_witness :
  let rejected :=
    snd (pushSnapshot (failing_env row_level_security_violation) sample_snapshot
           (scenario_world Working [] true)) in
  let unavailable :=
    snd (pushSnapshot (failing_env http_503) sample_snapshot
           (scenario_world Working [] true)) in
  retryTick (failing_env row_level_security_violation) rejected
  = pushSnapshot (failing_env row_level_security_violation) sample_snapshot rejected
  /\ retryTick (failing_env http_503) unavailable = (Return tt, unavailable).
Proof.
  intros rejected unavailable. split.
  - apply (retryTick_after_push (failing_env row_level_security_violation)
             sample_snapshot (scenario_world Working [] true));
      reflexivity.
  - apply (retryTick_after_push (failing_env http_503)
             sample_snapshot (scenario_world Working [] true));
      try reflexivity.
    discriminate.
Defined.

Lemma syncUnderLock_busy_witness :
  syncUnderLock online_env sample_session (locked_world 1699999999000)
  = (Return tt,
     on_store (with_cloudSyncReady (JBool true))
       (with_initializedRef true
          (on_store (with_cloudStatus Ok) (locked_world 1699999999000)))).
Proof.
  apply (syncUnderLock_busy online_env sample_session (locked_world 1699999999000)).
  - discriminate.
  - exists "1699999999000", 1699999999000. repeat split.
Defined.

Lemma pull_failure_buffers_snapshot_witness :
  let w' := snd (syncLocked (pull_failing_env http_503) sample_session
                   (scenario_world Working [] false)) in
  cloudStatus (store w') = Offline
  /\ items (localStorage w') !! KEY = Some (stored_text (snapshot_of sample_store))
  /\ initializedRef w' = true.
Proof.
  intros w'. unfold w'.
  rewrite (pull_failure_buffers_snapshot (pull_failing_env http_503) sample_session
             http_503 (scenario_world Working [] false) eq_refl eq_refl).
  repeat split.
Defined.

Lemma remote_data_wins_witness :
  exists w',
    syncLocked (scenario_env true (Return tt) sample_snapshot) sample_session
      (scenario_world Working [] false)
    = (Return tt, w')
    /\ remote_installed sample_snapshot (scenario_world Working [] false) w'
    /\ items (localStorage w') !! SYNC_LOCK_KEY = None.
Proof.
  apply (remote_data_wins (scenario_env true (Return tt) sample_snapshot)
           sample_session sample_snapshot (scenario_world Working [] false));
    reflexivity.
Defined.

Lemma first_sync_seeds_cloud_witness :
  let w' := snd (syncLocked online_env sample_session
                   (scenario_world Working [] false)) in
  cloudStatus (store w') = Ok
  /\ trace w'
     = [EvInitializePushNotifications;
        EvUpsertCloudState (snapshot_of sample_store) None;
        EvGetCloudState].
Proof.
  intros w'. unfold w'.
  rewrite (first_sync_seeds_cloud online_env sample_session JNull
             (scenario_world Working [] false) eq_refl eq_refl eq_refl).
  split; reflexivity.
Defined.

Lemma initForSession_abandoned_otp_witness :
  initForSession (signed_in_env (fun _ => true) JNull) (otp_world "1699999000000")
  = (Return tt,
     logged [EvReload; EvSignOut; EvGetSession; EvGetNetworkStatus]
       (startup_world []))
  /\ initForSession (signed_in_env (fun _ => true) JNull) (otp_world "1699999900000")
     = initWithSession (signed_in_env (fun _ => true) JNull) sample_session
         (logged [EvGetSession; EvGetNetworkStatus] (otp_world "1699999900000")).
Proof.
  split.
  - assert (Hmode : mode (localStorage (otp_world "1699999000000")) <> Denied)
      by discriminate.
    destruct (initForSession_abandoned_otp (signed_in_env (fun _ => true) JNull)
                sample_session "1699999000000" 1699999000000
                (otp_world "1699999000000")
                Hmode eq_refl eq_refl eq_refl eq_refl eq_refl)
      as (Habandoned & _).
    rewrite Habandoned by (cbn; lia). reflexivity.
  - assert (Hmode : mode (localStorage (otp_world "1699999900000")) <> Denied)
      by discriminate.
    destruct (initForSession_abandoned_otp (signed_in_env (fun _ => true) JNull)
                sample_session "1699999900000" 1699999900000
                (otp_world "1699999900000")
                Hmode eq_refl eq_refl eq_refl eq_refl eq_refl)
      as (_ & Hrecent).
    apply Hrecent. cbn. lia.
Defined.

Lemma initNoSession_guest_keeps_data_witness :
  let w' := snd (initNoSession online_env true (startup_world [(SEEN_KEY, "1")])) in
  localStorage w' = localStorage (startup_world [(SEEN_KEY, "1")])
  /\ snapshot_of (store w') = snapshot_of fresh_store
  /\ trace w' = [EvSignInAnonymously].
Proof.
  intros w'.
  destruct (initNoSession_guest_keeps_data online_env true
              (startup_world [(SEEN_KEY, "1")]))
    as (_ & Hstorage & Hdoc & _ & Htrace & _);
    [discriminate | discriminate | reflexivity |].
  split; [exact Hstorage |]. split; [exact Hdoc | exact Htrace].
Defined.


Lemma offline_then_online_witness :
  let w1 := snd (networkListener online_env false (scenario_world Working [] true)) in
  networkListener online_env true w1
  = pushSnapshot online_env (snapshot_of sample_store) w1.
Proof.
  apply (offline_then_online online_env (scenario_world Working [] true));
    reflexivity.
Defined.

Lemma lookup_supported_witness :
  (exists lng,
     customDetector.lookup "pt-BR" (scenario_world Working [("app_language", "de")] true)
     = (Return lng, scenario_world Working [("app_language", "de")] true)
     /\ In lng customDetector.supported)
  /\ customDetector.lookup "pt-BR" (scenario_world Denied [] true)
     = (Throw SecurityError, scenario_world Denied [] true).
Proof.
  split.
  - apply (lookup_supported "pt-BR"
             (scenario_world Working [("app_language", "de")] true)).
    discriminate.
  - apply (lookup_supported "pt-BR" (scenario_world Denied [] true)).
    reflexivity.
Defined.

Lemma cacheUserLanguage_lookup_witness :
  let w1 := snd (customDetector.cacheUserLanguage "fr"
                   (scenario_world Working [] true)) in
  customDetector.lookup "en-US" w1 = (Return "fr", w1).
Proof.
  intros w1.
  destruct (cacheUserLanguage_lookup "fr" "en-US" (scenario_world Working [] true)
              eq_refl) as (_ & _ & Hlookup).
  exact Hlookup.
Defined.

Lemma bannerEffect_showBanner_witness :
  AppFrame.bannerEffect true false "/settings/theme" = Some AppFrame.showBanner
  /\ AppFrame.chromeRendered "/settings/theme" = false.
Proof.
  destruct (bannerEffect_showBanner true false "/settings/theme") as (Hiff & Hchrome).
  assert (Hshown : AppFrame.bannerEffect true false "/settings/theme"
                   = Some AppFrame.showBanner).
  { apply Hiff. split; [reflexivity |]. split; [reflexivity |]. left. reflexivity. }
  split; [exact Hshown | apply (Hchrome Hshown)].
Defined.


Lemma onSignedOut_oauth_transition_witness :
  onSignedOut online_env (oauth_world "1699999950000")
  = (Return tt, oauth_world "1699999950000")
  /\ onSignedOut online_env (oauth_world "1699999000000")
     = onSignedOut online_env
         (on_storage (try_remove "app.oauthTransition") (oauth_world "1699999000000")).
Proof.
  split.
  - assert (Hmode : mode (localStorage (oauth_world "1699999950000")) <> Denied)
      by discriminate.
    destruct (onSignedOut_oauth_transition online_env "1699999950000" 1699999950000
                (oauth_world "1699999950000") Hmode eq_refl eq_refl)
      as (Hrecent & _).
    apply Hrecent. cbn. lia.
  - assert (Hmode : mode (localStorage (oauth_world "1699999000000")) <> Denied)
      by discriminate.
    destruct (onSignedOut_oauth_transition online_env "1699999000000" 1699999000000
                (oauth_world "1699999000000") Hmode eq_refl eq_refl)
      as (_ & Hstale).
    apply Hstale. cbn. lia.
Defined.

End Walkthroughs.
